(** * efis-editor: local file storage and the checklist command bar

    A shallow embedding of
    - [src/model/storage/local-file-storage.ts]  (class [LocalFileStorage])
    - the command bar component                  (class [ChecklistCommandBarComponent])

    Every method becomes a computation in a small monad [Js] that threads the
    object's fields, records the calls made to the browser (pickers, DOM,
    console, file handles) and ends like a promise does: fulfilled, rejected or
    never settled.  What the browser and the user answer is an explicit
    environment [Env]. *)

From Stdlib Require Import String List Bool.
From ExtLib Require Import Structures.Monad Structures.MonadExc.
Import ListNotations.
Import MonadNotation.
Local Open Scope string_scope.
Local Open Scope monad_scope.

(* ===================================================================== *)
(** * JavaScript values used by the two classes *)
(* ===================================================================== *)

(** A thrown value; the code only ever reads [error.name]. *)
Module JsError.
Record t : Type := make { name : string; message : string }.
End JsError.

(** The state an awaited promise ends in.  [Pending] is a promise that never
    settles (a dialog left open, an input element that fires no event). *)
Inductive PromiseState (A : Type) : Type :=
| Fulfilled (a : A)
| Rejected (e : JsError.t)
| Pending.
Arguments Fulfilled {A} a.
Arguments Rejected {A} e.
Arguments Pending {A}.

(* ===================================================================== *)
(** * The monad of method bodies *)
(* ===================================================================== *)

Section JsMonad.
Context {St Ev : Type}.

(** A method body: from the fields of [this] to a completion, the fields
    afterwards and the browser calls it made, in order. *)
Definition Js (A : Type) : Type := St -> PromiseState A * St * list Ev.

Definition js_ret {A} (a : A) : Js A := fun s => (Fulfilled a, s, []).

Definition js_bind {A B} (m : Js A) (k : A -> Js B) : Js B :=
  fun s =>
    match m s with
    | (Fulfilled a, s1, es1) =>
        match k a s1 with (r, s2, es2) => (r, s2, (es1 ++ es2)%list) end
    | (Rejected e, s1, es1) => (Rejected e, s1, es1)
    | (Pending, s1, es1) => (Pending, s1, es1)
    end.

(** [throw e] *)
Definition js_throw {A} (e : JsError.t) : Js A := fun s => (Rejected e, s, []).

(** [try { m } catch (error) { h error }]: assignments and calls made before
    the throw stay made. *)
Definition js_try {A} (m : Js A) (h : JsError.t -> Js A) : Js A :=
  fun s =>
    match m s with
    | (Rejected e, s1, es1) =>
        match h e s1 with (r, s2, es2) => (r, s2, (es1 ++ es2)%list) end
    | other => other
    end.

(** [await p] for a promise whose outcome the environment fixed. *)
Definition await {A} (p : PromiseState A) : Js A := fun s => (p, s, []).

(** Read and assign the fields of [this]. *)
Definition this : Js St := fun s => (Fulfilled s, s, []).
Definition assign (f : St -> St) : Js unit := fun s => (Fulfilled tt, f s, []).

(** A call into the browser, recorded. *)
Definition perform (e : Ev) : Js unit := fun s => (Fulfilled tt, s, [e]).

#[export] Instance Monad_Js : Monad Js :=
  {| ret := @js_ret; bind := @js_bind |}.

#[export] Instance Exception_Js : MonadExc JsError.t Js :=
  {| raise := @js_throw; catch := @js_try |}.

End JsMonad.
Arguments Js : clear implicits.

(** Projections of a finished run. *)
Definition completion {St Ev A} (r : PromiseState A * St * list Ev) : PromiseState A :=
  fst (fst r).
Definition fields {St Ev A} (r : PromiseState A * St * list Ev) : St := snd (fst r).
Definition calls {St Ev A} (r : PromiseState A * St * list Ev) : list Ev := snd r.

(* ===================================================================== *)
(** * Data model *)
(* ===================================================================== *)

(** [FileSystemFileHandle]: the reference to a file the user picked.  The
    code reads its [name] and calls [getFile] and [createWritable] on it;
    [entry] stands for the filesystem entry it designates. *)
Module FileSystemFileHandle.
Record t : Type := make { entry : nat; name : string }.
End FileSystemFileHandle.

(** A DOM [File] (a named [Blob]): what [getFile] and the file input hand
    over, and what the codec's [fromProto] produces. *)
Module File.
Record t : Type := make { name : string; contents : string }.
End File.

(** Modelled from the spec: the generated [ChecklistFile] message
    ([gen/ts/checklist]) is not part of the sources at hand.  The spec says it
    possesses at least a [metadata.name] field; [groups] stands for the rest
    of the document. *)
Module ChecklistFileMetadata.
Record t : Type := make { name : string }.
End ChecklistFileMetadata.

(** Modelled from the spec: [ChecklistFile] itself, with its optional
    [metadata] (the code reads [checklistFile.metadata?.name]). *)
Record ChecklistFile : Type := mkChecklistFile {
  metadata : option ChecklistFileMetadata.t;
  groups : list string
}.

(** The codec object [FORMAT_REGISTRY.getFormat(FormatId.JSON)], taken as a
    parameter: [toProto] decodes a file, [fromProto] encodes a document into
    a named blob; either promise may reject. *)
Record Format : Type := mkFormat {
  toProto : File.t -> PromiseState ChecklistFile;
  fromProto : ChecklistFile -> PromiseState File.t
}.

(** Option bags passed to the two pickers. *)
Record FilePickerAcceptType : Type := mkAcceptType {
  description : string;
  accept : list (string * list string)
}.

Record OpenFilePickerOptions : Type := mkOpenOptions {
  open_types : list FilePickerAcceptType;
  multiple : bool
}.

Record SaveFilePickerOptions : Type := mkSaveOptions {
  suggestedName : string;
  save_types : list FilePickerAcceptType
}.

(** The URL minted by [URL.createObjectURL(blob)]. *)
Inductive ObjectURL : Type := BlobURL (blob : File.t).

(** The two DOM elements the fallback paths create, with the properties the
    code sets on them. *)
Inductive Element : Type :=
| HTMLInputElement (type accept : string)
| HTMLAnchorElement (href : ObjectURL) (download : string).

(** Calls into the browser, as the trace records them. *)
Inductive Effect : Type :=
| ShowOpenFilePicker (options : OpenFilePickerOptions)
| ShowSaveFilePicker (options : SaveFilePickerOptions)
| GetFile (fileHandle : FileSystemFileHandle.t)
| CreateWritable (fileHandle : FileSystemFileHandle.t)
| WritableWrite (fileHandle : FileSystemFileHandle.t) (data : string)
| WritableClose (fileHandle : FileSystemFileHandle.t)
| ConsoleError (text : string) (error : JsError.t)
| CreateElement (tag : string)
| AppendChild (el : Element)
| Click (el : Element)
| RemoveChild (el : Element)
| CreateObjectURL (blob : File.t)
| RevokeObjectURL (url : ObjectURL).

(** What the user does with the file input once [input.click()] opened the
    browser's chooser. *)
Inductive InputInteraction : Type :=
| InputChange (files : option (list File.t))   (* [onchange], with [input.files] *)
| InputCancel                                  (* [oncancel] *)
| InputNoEvent.                                (* neither handler ever runs *)

(** The global [window], when there is one.  A picker that is [None] is a
    property absent from [window]. *)
Record Window : Type := mkWindow {
  showOpenFilePicker :
    option (OpenFilePickerOptions -> PromiseState (list FileSystemFileHandle.t));
  showSaveFilePicker :
    option (SaveFilePickerOptions -> PromiseState (option FileSystemFileHandle.t))
}.

(** The global [document], when there is one, with what the user does with a
    file input created in it. *)
Record Document : Type := mkDocument {
  inputAnswer : InputInteraction
}.

(** Everything outside the class that one call depends on: the globals
    [window] and [document], either of which may be undefined, and the
    answers of the user and the filesystem.  [URL] and [console] are always
    there. *)
Record Env : Type := mkEnv {
  window : option Window;
  document : option Document;
  getFile : FileSystemFileHandle.t -> PromiseState File.t;
  createWritable : FileSystemFileHandle.t -> PromiseState unit;
  write : FileSystemFileHandle.t -> string -> PromiseState unit;
  close : FileSystemFileHandle.t -> PromiseState unit
}.

(** What the user does with the file input of the environment's document;
    without a document there is no input element and no event. *)
Definition fileInput (env : Env) : InputInteraction :=
  match document env with
  | Some d => inputAnswer d
  | None => InputNoEvent
  end.

(** The fields of a [LocalFileStorage] instance. *)
Record LocalFileStorage : Type := mkLocalFileStorage {
  _jsonFormat : Format;
  _currentFileHandle : option FileSystemFileHandle.t
}.

Definition set_currentFileHandle (v : option FileSystemFileHandle.t)
  (st : LocalFileStorage) : LocalFileStorage :=
  mkLocalFileStorage (_jsonFormat st) v.

(** A freshly constructed service: the handle field has no initialiser. *)
Definition new_LocalFileStorage (jsonFormat : Format) : LocalFileStorage :=
  mkLocalFileStorage jsonFormat None.

Definition Method (A : Type) : Type := Js LocalFileStorage Effect A.

(* ===================================================================== *)
(** * Small JavaScript idioms *)
(* ===================================================================== *)

Definition is_some {A} (o : option A) : bool :=
  match o with Some _ => true | None => false end.

(** Truthiness of a string: every string but the empty one. *)
Definition truthy_string (s : string) : bool := negb (String.eqb s "").

(** [a || b] on strings that may be [undefined]. *)
Definition or_default (a : option string) (b : string) : string :=
  match a with
  | Some s => if truthy_string s then s else b
  | None => b
  end.

Definition TypeError (msg : string) : JsError.t := JsError.make "TypeError" msg.
Definition ReferenceError (msg : string) : JsError.t := JsError.make "ReferenceError" msg.
Definition Error (msg : string) : JsError.t := JsError.make "Error" msg.

(** [error.name === 'AbortError'] *)
Definition isAbortError (error : JsError.t) : bool :=
  String.eqb (JsError.name error) "AbortError".

Definition checklistTypes : list FilePickerAcceptType :=
  [ mkAcceptType "Checklist Files" [ ("application/json", [".json"]) ] ].

(* ===================================================================== *)
(** * Calls into the browser *)
(* ===================================================================== *)

(** [(window as any).showOpenFilePicker(options)] *)
Definition call_showOpenFilePicker (env : Env) (options : OpenFilePickerOptions)
  : Method (list FileSystemFileHandle.t) :=
  match window env with
  | None => raise (ReferenceError "window is not defined")
  | Some w =>
      match showOpenFilePicker w with
      | None => raise (TypeError "window.showOpenFilePicker is not a function")
      | Some picker => perform (ShowOpenFilePicker options) ;; await (picker options)
      end
  end.

(** [(window as any).showSaveFilePicker(options)] *)
Definition call_showSaveFilePicker (env : Env) (options : SaveFilePickerOptions)
  : Method (option FileSystemFileHandle.t) :=
  match window env with
  | None => raise (ReferenceError "window is not defined")
  | Some w =>
      match showSaveFilePicker w with
      | None => raise (TypeError "window.showSaveFilePicker is not a function")
      | Some picker => perform (ShowSaveFilePicker options) ;; await (picker options)
      end
  end.

(** [document.createElement(tag)]: evaluating [document] throws where the
    global is not defined. *)
Definition call_createElement (env : Env) (tag : string) : Method unit :=
  match document env with
  | None => raise (ReferenceError "document is not defined")
  | Some _ => perform (CreateElement tag)
  end.

(** [fileHandle.getFile()], where [fileHandle] may be [undefined]. *)
Definition call_getFile (env : Env) (fileHandle : option FileSystemFileHandle.t)
  : Method File.t :=
  match fileHandle with
  | None => raise (TypeError "Cannot read properties of undefined (reading 'getFile')")
  | Some h => perform (GetFile h) ;; await (getFile env h)
  end.

(* ===================================================================== *)
(** * class LocalFileStorage *)
(* ===================================================================== *)

(** [isFileSystemAccessSupported(): boolean] *)
Definition isFileSystemAccessSupported (env : Env) : Method bool :=
  match window env with
  | None => ret false                       (* typeof window === 'undefined' *)
  | Some w => ret (is_some (showOpenFilePicker w) && is_some (showSaveFilePicker w))
  end.

Definition openOptions : OpenFilePickerOptions :=
  mkOpenOptions checklistTypes false.

(** [private async _openFileWithFSA()] *)
Definition _openFileWithFSA (env : Env) : Method (option ChecklistFile) :=
  catch
    (handles <- call_showOpenFilePicker env openOptions ;;
     let fileHandle := hd_error handles in          (* const [fileHandle] = ... *)
     assign (set_currentFileHandle fileHandle) ;;
     file <- call_getFile env fileHandle ;;
     self <- this ;;
     checklistFile <- await (toProto (_jsonFormat self) file) ;;
     ret (Some checklistFile))
    (fun error =>
       if isAbortError error then ret None else raise error).

(** [input.files?.[0]] *)
Definition first_file (files : option (list File.t)) : option File.t :=
  match files with
  | None => None
  | Some l => hd_error l
  end.

(** [private async _openFileWithFallback()]: the promise resolves from the
    handler the user's action triggers; an exception in the executor, which
    has no [try], rejects it. *)
Definition _openFileWithFallback (env : Env) : Method (option ChecklistFile) :=
  call_createElement env "input" ;;
  let input := HTMLInputElement "file" ".json" in
  perform (Click input) ;;
  match fileInput env with
  | InputChange files =>
      match first_file files with
      | Some file =>
          catch
            (self <- this ;;
             checklistFile <- await (toProto (_jsonFormat self) file) ;;
             ret (Some checklistFile))
            (fun error =>
               perform (ConsoleError "Failed to parse file:" error) ;;
               ret None)
      | None => ret None
      end
  | InputCancel => ret None
  | InputNoEvent => await Pending
  end.

(** [async openFile()] *)
Definition openFile (env : Env) : Method (option ChecklistFile) :=
  supported <- isFileSystemAccessSupported env ;;
  if (supported : bool) then _openFileWithFSA env else _openFileWithFallback env.

(** [`${checklistFile.metadata?.name || 'checklist'}.json`] *)
Definition suggestedNameOf (checklistFile : ChecklistFile) : string :=
  or_default (option_map ChecklistFileMetadata.name (metadata checklistFile)) "checklist"
  ++ ".json".

Definition saveOptions (checklistFile : ChecklistFile) : SaveFilePickerOptions :=
  mkSaveOptions (suggestedNameOf checklistFile) checklistTypes.

(** [private async _saveFileWithFSA(checklistFile, saveAs)] *)
Definition _saveFileWithFSA (env : Env) (checklistFile : ChecklistFile) (saveAs : bool)
  : Method bool :=
  catch
    (self <- this ;;
     let fileHandle := _currentFileHandle self in
     fileHandle <-
       (if saveAs || negb (is_some fileHandle) then
          picked <- call_showSaveFilePicker env (saveOptions checklistFile) ;;
          assign (set_currentFileHandle picked) ;;
          ret picked
        else ret fileHandle) ;;
     match fileHandle with
     | None => raise (Error "No file handle available")
     | Some h =>
         perform (CreateWritable h) ;;
         await (createWritable env h) ;;
         self <- this ;;
         blob <- await (fromProto (_jsonFormat self) checklistFile) ;;
         let buffer := File.contents blob in        (* await blob.arrayBuffer() *)
         perform (WritableWrite h buffer) ;;
         await (write env h buffer) ;;
         perform (WritableClose h) ;;
         await (close env h) ;;
         ret true
     end)
    (fun error =>
       if isAbortError error then ret false else raise error).

(** [private async _saveFileWithFallback(checklistFile)].  The whole
    download sits inside the [try]: whatever is thrown there, by the codec or
    by the reference to a [document] that is not defined, is logged. *)
Definition _saveFileWithFallback (env : Env) (checklistFile : ChecklistFile)
  : Method bool :=
  catch
    (self <- this ;;
     blob <- await (fromProto (_jsonFormat self) checklistFile) ;;
     perform (CreateObjectURL blob) ;;
     let url := BlobURL blob in
     call_createElement env "a" ;;
     let a := HTMLAnchorElement url (File.name blob) in
     perform (AppendChild a) ;;
     perform (Click a) ;;
     perform (RemoveChild a) ;;
     perform (RevokeObjectURL url) ;;
     ret true)
    (fun error =>
       perform (ConsoleError "Failed to save file:" error) ;;
       ret false).

(** [async saveFile(checklistFile, saveAs = false)] *)
Definition saveFile (env : Env) (checklistFile : ChecklistFile) (saveAs : bool)
  : Method bool :=
  supported <- isFileSystemAccessSupported env ;;
  if (supported : bool) then _saveFileWithFSA env checklistFile saveAs
  else _saveFileWithFallback env checklistFile.

(** [clearFileHandle(): void] *)
Definition clearFileHandle : Method unit :=
  assign (set_currentFileHandle None).

(** [hasFileHandle(): boolean] *)
Definition hasFileHandle : Method bool :=
  self <- this ;;
  ret (is_some (_currentFileHandle self)).

(** [async getCurrentFileName()] *)
Definition getCurrentFileName : Method (option string) :=
  self <- this ;;
  match _currentFileHandle self with
  | None => ret None
  | Some h => ret (Some (FileSystemFileHandle.name h))
  end.

(** The strategy a call made in [env] selects: [true] for the native one. *)
Definition nativeStrategy (env : Env) (st : LocalFileStorage) : bool :=
  match completion (isFileSystemAccessSupported env st) with
  | Fulfilled supported => supported
  | _ => false
  end.

(** The test [saveAs || !fileHandle] of [_saveFileWithFSA], on the fields the
    call starts from: whether the call asks for a location. *)
Definition asksLocation (saveAs : bool) (st : LocalFileStorage) : bool :=
  saveAs || negb (is_some (_currentFileHandle st)).

(** Whether a trace shows a picker of either kind. *)
Definition isSavePicker (e : Effect) : bool :=
  match e with ShowSaveFilePicker _ => true | _ => false end.
Definition isOpenPicker (e : Effect) : bool :=
  match e with ShowOpenFilePicker _ => true | _ => false end.
Definition promptsSave (trace : list Effect) : bool := existsb isSavePicker trace.
Definition promptsOpen (trace : list Effect) : bool := existsb isOpenPicker trace.

(* ===================================================================== *)
(** * Sequences of calls on one service instance *)
(* ===================================================================== *)

Inductive Call : Type :=
| CallIsFileSystemAccessSupported (env : Env)
| CallOpenFile (env : Env)
| CallSaveFile (env : Env) (checklistFile : ChecklistFile) (saveAs : bool)
| CallClearFileHandle
| CallHasFileHandle
| CallGetCurrentFileName.

(** The fields after one call. *)
Definition step (c : Call) (st : LocalFileStorage) : LocalFileStorage :=
  match c with
  | CallIsFileSystemAccessSupported env => fields (isFileSystemAccessSupported env st)
  | CallOpenFile env => fields (openFile env st)
  | CallSaveFile env checklistFile saveAs => fields (saveFile env checklistFile saveAs st)
  | CallClearFileHandle => fields (clearFileHandle st)
  | CallHasFileHandle => fields (hasFileHandle st)
  | CallGetCurrentFileName => fields (getCurrentFileName st)
  end.

(** The fields after a sequence of calls, oldest first. *)
Definition final (cs : list Call) (st : LocalFileStorage) : LocalFileStorage :=
  fold_left (fun s c => step c s) cs st.

Definition isOpenOrSave (c : Call) : bool :=
  match c with
  | CallOpenFile _ | CallSaveFile _ _ _ => true
  | _ => false
  end.

(** The most recent [openFile] or [saveFile] call of a sequence, with the
    fields it started from. *)
Fixpoint mostRecentOpenOrSave (cs : list Call) (st : LocalFileStorage)
  (seen : option (Call * LocalFileStorage)) : option (Call * LocalFileStorage) :=
  match cs with
  | [] => seen
  | c :: rest =>
      mostRecentOpenOrSave rest (step c st)
        (if isOpenOrSave c then Some (c, st) else seen)
  end.

(** A call that went through the native strategy and succeeded: [openFile]
    fulfilled with a document, [saveFile] fulfilled with [true]. *)
Definition succeededNatively (c : Call) (st : LocalFileStorage) : bool :=
  match c with
  | CallOpenFile env =>
      nativeStrategy env st &&
      match completion (openFile env st) with
      | Fulfilled (Some _) => true
      | _ => false
      end
  | CallSaveFile env checklistFile saveAs =>
      nativeStrategy env st &&
      match completion (saveFile env checklistFile saveAs st) with
      | Fulfilled true => true
      | _ => false
      end
  | _ => false
  end.

(** A call that went through the native strategy and whose picker was shown
    and answered with the handle [h]. *)
Inductive PickedNatively (st : LocalFileStorage) (h : FileSystemFileHandle.t)
  : Call -> Prop :=
| picked_by_open env rest :
    nativeStrategy env st = true ->
    completion (call_showOpenFilePicker env openOptions st) = Fulfilled (h :: rest) ->
    PickedNatively st h (CallOpenFile env)
| picked_by_save env checklistFile saveAs :
    nativeStrategy env st = true ->
    promptsSave (calls (saveFile env checklistFile saveAs st)) = true ->
    completion (call_showSaveFilePicker env (saveOptions checklistFile) st)
      = Fulfilled (Some h) ->
    PickedNatively st h (CallSaveFile env checklistFile saveAs).

(** The invariant of the data model, read literally: when a handle is held,
    the sequence has a most recent [openFile] or [saveFile] call, and that
    call went through the native strategy and succeeded. *)
Definition HandleImpliesLastCallSucceeded (cs : list Call) (st0 : LocalFileStorage)
  : Prop :=
  completion (hasFileHandle (final cs st0)) = Fulfilled true ->
  exists c st,
    mostRecentOpenOrSave cs st0 None = Some (c, st) /\
    succeededNatively c st = true.

(* ===================================================================== *)
(** * class ChecklistCommandBarComponent *)
(* ===================================================================== *)

Module CommandBar.

(** Modelled from the spec: [FormatId] is declared in [model/formats/format-id],
    which is not part of the sources at hand; the two members the sources name. *)
Inductive FormatId : Type := JSON | PDF.

(** The [output()] emitters of the component, with the value emitted. *)
Inductive Output : Type :=
| newFile (filename : string)
| openFile (value : bool)
| openLocalFile (value : bool)
| saveLocalFile (saveAs : bool)
| uploadFile (value : bool)
| downloadFile (format : FormatId)
| deleteFile (value : bool)
| fileInfo (value : bool).

Record TitleDialogData : Type := mkTitleData { promptType : string }.
Record DeleteDialogData : Type := mkDeleteData {
  entityType : string;
  entityDescription : string
}.

(** The two dialogs, taken as parameters: what the user answers.  The title
    prompt resolves to a string or to [undefined]. *)
Record Dialogs : Type := mkDialogs {
  promptForTitle : TitleDialogData -> PromiseState (option string);
  confirmDeletion : DeleteDialogData -> PromiseState bool
}.

Inductive Interaction : Type :=
| OpenTitleDialog (data : TitleDialogData)
| OpenDeleteDialog (data : DeleteDialogData)
| Emit (o : Output).

(** The fields of the component the methods could touch. *)
Record ChecklistCommandBarComponent : Type := mkComponent {
  hasFiles : bool;
  fileIsOpen : bool;
  _hasFileSystemAccess : bool
}.

Definition Handler (A : Type) : Type := Js ChecklistCommandBarComponent Interaction A.

(** The arguments the two dialogs are opened with. *)
Definition titleData : TitleDialogData := mkTitleData "file".
Definition deleteData : DeleteDialogData :=
  mkDeleteData "file" "this file and all checklists within".

(** [async onNewFile()] *)
Definition onNewFile (dialog : Dialogs) : Handler unit :=
  let data := titleData in
  perform (OpenTitleDialog data) ;;
  title <- await (promptForTitle dialog data) ;;
  match title with
  | Some s => if truthy_string s then perform (Emit (newFile s)) else ret tt
  | None => ret tt
  end.

(** [async onDeleteFile()] *)
Definition onDeleteFile (dialog : Dialogs) : Handler unit :=
  let data := deleteData in
  perform (OpenDeleteDialog data) ;;
  confirmed <- await (confirmDeletion dialog data) ;;
  if (confirmed : bool) then perform (Emit (deleteFile true)) else ret tt.

(** The values emitted during a run, in order. *)
Fixpoint emitted (trace : list Interaction) : list Output :=
  match trace with
  | [] => []
  | Emit o :: rest => o :: emitted rest
  | _ :: rest => emitted rest
  end.

End CommandBar.

(* ===================================================================== *)
(** * Sample values *)
(* ===================================================================== *)

Module Sample.

Definition tripHandle : FileSystemFileHandle.t := FileSystemFileHandle.make 1 "trip.json".
Definition otherHandle : FileSystemFileHandle.t := FileSystemFileHandle.make 2 "copy.json".

Definition tripDoc : ChecklistFile :=
  mkChecklistFile (Some (ChecklistFileMetadata.make "trip")) ["Preflight"].

Definition syntaxError : JsError.t := JsError.make "SyntaxError" "Unexpected token".
Definition abortError : JsError.t := JsError.make "AbortError" "The user aborted a request.".

(** A codec that decodes files whose text starts with a brace and encodes
    documents that carry metadata. *)
Definition jsonFormat : Format :=
  mkFormat
    (fun file =>
       if String.eqb (String.substring 0 1 (File.contents file)) "{"
       then Fulfilled (mkChecklistFile (Some (ChecklistFileMetadata.make (File.name file))) [])
       else Rejected syntaxError)
    (fun doc =>
       match metadata doc with
       | Some m => Fulfilled (File.make (ChecklistFileMetadata.name m ++ ".json") "{}")
       | None => Rejected (Error "missing metadata")
       end).

Definition storage : LocalFileStorage := new_LocalFileStorage jsonFormat.
Definition storageWith (h : FileSystemFileHandle.t) : LocalFileStorage :=
  mkLocalFileStorage jsonFormat (Some h).

(** A browser with both pickers; files read back with the given text. *)
Definition native
  (openAnswer : PromiseState (list FileSystemFileHandle.t))
  (saveAnswer : PromiseState (option FileSystemFileHandle.t))
  (text : string) : Env :=
  mkEnv
    (Some (mkWindow (Some (fun _ => openAnswer)) (Some (fun _ => saveAnswer))))
    (Some (mkDocument InputNoEvent))
    (fun h => Fulfilled (File.make (FileSystemFileHandle.name h) text))
    (fun _ => Fulfilled tt)
    (fun _ _ => Fulfilled tt)
    (fun _ => Fulfilled tt).

(** The user dismisses whichever picker shows up. *)
Definition cancelling : Env := native (Rejected abortError) (Rejected abortError) "{}".
Definition cancellingWindow : Window :=
  mkWindow (Some (fun _ => Rejected abortError)) (Some (fun _ => Rejected abortError)).

(** The user picks [tripHandle] to open and [otherHandle] to save to. *)
Definition picking : Env :=
  native (Fulfilled [tripHandle]) (Fulfilled (Some otherHandle)) "{}".
Definition pickingWindow : Window :=
  mkWindow (Some (fun _ => Fulfilled [tripHandle]))
           (Some (fun _ => Fulfilled (Some otherHandle))).

(** The user picks a file that does not hold a checklist. *)
Definition garbled : Env :=
  native (Fulfilled [tripHandle]) (Fulfilled (Some otherHandle)) "oops".

(** A browser lacking the pickers, where the user answers the file input. *)
Definition legacy (answer : InputInteraction) : Env :=
  mkEnv
    (Some (mkWindow None None))
    (Some (mkDocument answer))
    (fun _ => Rejected (Error "unreachable"))
    (fun _ => Rejected (Error "unreachable"))
    (fun _ _ => Rejected (Error "unreachable"))
    (fun _ => Rejected (Error "unreachable")).

(** Neither [window] nor [document] (server-side rendering). *)
Definition server : Env :=
  mkEnv None None
    (fun _ => Rejected (Error "unreachable"))
    (fun _ => Rejected (Error "unreachable"))
    (fun _ _ => Rejected (Error "unreachable"))
    (fun _ => Rejected (Error "unreachable")).

(** A user who types the given title and answers the confirmation. *)
Definition answering (title : option string) (confirmed : bool) : CommandBar.Dialogs :=
  CommandBar.mkDialogs (fun _ => Fulfilled title) (fun _ => Fulfilled confirmed).

Definition commandBar : CommandBar.ChecklistCommandBarComponent :=
  CommandBar.mkComponent true false true.

End Sample.

(* ===================================================================== *)
(** * Reading traces and call sequences *)
(* ===================================================================== *)

(** Calls that go through a handle's writable stream, and the one that reads
    a handle's file. *)
Definition isWrite (e : Effect) : bool :=
  match e with
  | CreateWritable _ | WritableWrite _ _ | WritableClose _ => true
  | _ => false
  end.
Definition isRead (e : Effect) : bool :=
  match e with GetFile _ => true | _ => false end.
Definition isClose (e : Effect) : bool :=
  match e with WritableClose _ => true | _ => false end.
Definition writes (trace : list Effect) : bool := existsb isWrite trace.
Definition reads (trace : list Effect) : bool := existsb isRead trace.
Definition closes (trace : list Effect) : bool := existsb isClose trace.

(** The environment a call of a sequence runs in, when it looks at one. *)
Definition envOf (c : Call) : option Env :=
  match c with
  | CallIsFileSystemAccessSupported env
  | CallOpenFile env
  | CallSaveFile env _ _ => Some env
  | _ => None
  end.

(** A call that, started from [st], does not go through the native strategy. *)
Definition runsFallback (st : LocalFileStorage) (c : Call) : bool :=
  match envOf c with
  | Some env => negb (nativeStrategy env st)
  | None => true
  end.

(** Environments for the examples, with every answer chosen. *)
Module Scenario.

Definition windowOf
  (openAnswer : PromiseState (list FileSystemFileHandle.t))
  (saveAnswer : PromiseState (option FileSystemFileHandle.t)) : Window :=
  mkWindow (Some (fun _ => openAnswer)) (Some (fun _ => saveAnswer)).

Definition browser
  (openAnswer : PromiseState (list FileSystemFileHandle.t))
  (saveAnswer : PromiseState (option FileSystemFileHandle.t))
  (file : PromiseState File.t)
  (created written closed : PromiseState unit) : Env :=
  mkEnv (Some (windowOf openAnswer saveAnswer)) (Some (mkDocument InputNoEvent))
    (fun _ => file) (fun _ => created) (fun _ _ => written) (fun _ => closed).

Definition diskFull : JsError.t := JsError.make "QuotaExceededError" "disk full".
Definition denied : JsError.t := JsError.make "NotAllowedError" "permission denied".
Definition checklistJson : File.t := File.make "trip.json" "{}".
Definition notes : File.t := File.make "notes.txt" "oops".
Definition untitled : ChecklistFile := mkChecklistFile None [].
Definition unnamed : ChecklistFile :=
  mkChecklistFile (Some (ChecklistFileMetadata.make "")) ["Preflight"].

End Scenario.

(* ===================================================================== *)
(** * Reasoning about method bodies *)
(* ===================================================================== *)

(** Unfold the monad so that a run reduces to a pattern match on the answers
    of the environment. *)
Ltac js_unfold :=
  unfold completion, fields, calls;
  cbn [bind ret raise catch Monad_Js Exception_Js];
  unfold js_bind, js_ret, js_throw, js_try, await, this, assign, perform.

(** Case analysis on the next answer the run is waiting for. *)
Ltac next_answer :=
  match goal with
  | |- context [match ?p with Fulfilled _ => _ | Rejected _ => _ | Pending => _ end] =>
      let E := fresh "Answer" in destruct p eqn:E
  | |- context [if isAbortError ?e then _ else _] =>
      let E := fresh "Abort" in destruct (isAbortError e) eqn:E
  end.

Ltac all_answers := repeat (next_answer; cbn).

(** Case analysis on whether the environment has a [document]. *)
Ltac with_document env :=
  unfold call_createElement, fileInput;
  let d := fresh "d" in
  let E := fresh "Hdocument" in
  destruct (document env) as [d|] eqn:E; js_unfold; cbn.

Lemma set_currentFileHandle_same st :
  set_currentFileHandle (_currentFileHandle st) st = st.
Proof. destruct st; reflexivity. Qed.

Lemma isAbortError_name e : JsError.name e = "AbortError" -> isAbortError e = true.
Proof. unfold isAbortError. intros ->. reflexivity. Qed.

(** Capability detection, spelled out on the environment. *)
Lemma nativeStrategy_true env st :
  nativeStrategy env st = true <->
  exists w op sp,
    window env = Some w /\ showOpenFilePicker w = Some op /\ showSaveFilePicker w = Some sp.
Proof.
  unfold nativeStrategy, isFileSystemAccessSupported. split.
  - destruct (window env) as [w|]; cbn; [|discriminate].
    destruct (showOpenFilePicker w) as [op|] eqn:Ho; cbn; [|discriminate].
    destruct (showSaveFilePicker w) as [sp|] eqn:Hs; cbn; [|discriminate].
    intros _. exists w, op, sp. auto.
  - intros (w & op & sp & -> & Ho & Hs). cbn. rewrite Ho, Hs. reflexivity.
Qed.

Lemma nativeStrategy_false env st :
  nativeStrategy env st = false <->
  window env = None \/
  exists w, window env = Some w /\
            (showOpenFilePicker w = None \/ showSaveFilePicker w = None).
Proof.
  unfold nativeStrategy, isFileSystemAccessSupported. split.
  - destruct (window env) as [w|]; cbn; [|auto].
    intros H. right. exists w. split; [reflexivity|].
    destruct (showOpenFilePicker w); [|auto].
    destruct (showSaveFilePicker w); [discriminate|auto].
  - intros [-> | (w & -> & [H | H])]; cbn; rewrite ?H; cbn; auto.
    destruct (showOpenFilePicker w); reflexivity.
Qed.

(** The check itself neither assigns a field nor calls the browser. *)
Lemma isFileSystemAccessSupported_run env st :
  isFileSystemAccessSupported env st = (Fulfilled (nativeStrategy env st), st, []).
Proof.
  unfold nativeStrategy, isFileSystemAccessSupported.
  destruct (window env); reflexivity.
Qed.

(** The public methods are their strategy. *)
Lemma openFile_strategy env st :
  openFile env st =
  if nativeStrategy env st then _openFileWithFSA env st else _openFileWithFallback env st.
Proof.
  unfold openFile. js_unfold. rewrite isFileSystemAccessSupported_run.
  destruct (nativeStrategy env st).
  - destruct (_openFileWithFSA env st) as [[r s] es]; reflexivity.
  - destruct (_openFileWithFallback env st) as [[r s] es]; reflexivity.
Qed.

Lemma saveFile_strategy env checklistFile saveAs st :
  saveFile env checklistFile saveAs st =
  if nativeStrategy env st then _saveFileWithFSA env checklistFile saveAs st
  else _saveFileWithFallback env checklistFile st.
Proof.
  unfold saveFile. js_unfold. rewrite isFileSystemAccessSupported_run.
  destruct (nativeStrategy env st).
  - destruct (_saveFileWithFSA env checklistFile saveAs st) as [[r s] es]; reflexivity.
  - destruct (_saveFileWithFallback env checklistFile st) as [[r s] es]; reflexivity.
Qed.

(** The pickers, once the globals are known to be there. *)
Lemma call_showOpenFilePicker_run env st w op :
  window env = Some w -> showOpenFilePicker w = Some op ->
  call_showOpenFilePicker env openOptions st =
  (op openOptions, st, [ShowOpenFilePicker openOptions]).
Proof.
  intros Hw Ho. unfold call_showOpenFilePicker. rewrite Hw, Ho. js_unfold.
  reflexivity.
Qed.

Lemma call_showSaveFilePicker_run env st w sp options :
  window env = Some w -> showSaveFilePicker w = Some sp ->
  call_showSaveFilePicker env options st =
  (sp options, st, [ShowSaveFilePicker options]).
Proof.
  intros Hw Hs. unfold call_showSaveFilePicker. rewrite Hw, Hs. js_unfold.
  reflexivity.
Qed.

(* ===================================================================== *)
(** * The native strategy *)
(* ===================================================================== *)

Section NativeStrategy.
Variable env : Env.
Variable w : Window.
Variable op : OpenFilePickerOptions -> PromiseState (list FileSystemFileHandle.t).
Variable sp : SaveFilePickerOptions -> PromiseState (option FileSystemFileHandle.t).
Hypothesis has_window : window env = Some w.
Hypothesis has_open : showOpenFilePicker w = Some op.
Hypothesis has_save : showSaveFilePicker w = Some sp.

Lemma native_selected st : nativeStrategy env st = true.
Proof. apply nativeStrategy_true. exists w, op, sp. auto. Qed.

(** The open picker always comes first; what follows depends on its answer. *)
Lemma _openFileWithFSA_prompts st :
  exists rest,
    calls (_openFileWithFSA env st) = ShowOpenFilePicker openOptions :: rest.
Proof.
  unfold _openFileWithFSA. js_unfold.
  rewrite (call_showOpenFilePicker_run env st w op has_window has_open).
  destruct (op openOptions) as [[|h hs]|e|]; cbn;
    all_answers; eexists; reflexivity.
Qed.

Lemma _openFileWithFSA_fields st :
  fields (_openFileWithFSA env st) =
  match op openOptions with
  | Fulfilled handles => set_currentFileHandle (hd_error handles) st
  | _ => st
  end.
Proof.
  unfold _openFileWithFSA. js_unfold.
  rewrite (call_showOpenFilePicker_run env st w op has_window has_open).
  destruct (op openOptions) as [[|h hs]|e|]; cbn; all_answers; reflexivity.
Qed.

Lemma _openFileWithFSA_cancelled st e :
  op openOptions = Rejected e -> isAbortError e = true ->
  _openFileWithFSA env st = (Fulfilled None, st, [ShowOpenFilePicker openOptions]).
Proof.
  intros Hp Ha. unfold _openFileWithFSA. js_unfold.
  rewrite (call_showOpenFilePicker_run env st w op has_window has_open), Hp.
  cbn. rewrite Ha. reflexivity.
Qed.

Lemma _saveFileWithFSA_fields checklistFile saveAs st :
  fields (_saveFileWithFSA env checklistFile saveAs st) =
  if asksLocation saveAs st then
    match sp (saveOptions checklistFile) with
    | Fulfilled picked => set_currentFileHandle picked st
    | _ => st
    end
  else st.
Proof.
  unfold _saveFileWithFSA, asksLocation. js_unfold.
  destruct (saveAs || negb (is_some (_currentFileHandle st))) eqn:Hprompt.
  - js_unfold.
    rewrite (call_showSaveFilePicker_run env st w sp _ has_window has_save).
    destruct (sp (saveOptions checklistFile)) as [[h|]|e|]; cbn;
      all_answers; reflexivity.
  - js_unfold. destruct (_currentFileHandle st) as [h|]; cbn;
      all_answers; reflexivity.
Qed.

Lemma _saveFileWithFSA_prompts checklistFile saveAs st :
  asksLocation saveAs st = true ->
  exists rest,
    calls (_saveFileWithFSA env checklistFile saveAs st)
    = ShowSaveFilePicker (saveOptions checklistFile) :: rest.
Proof.
  unfold _saveFileWithFSA, asksLocation. js_unfold. intros ->. js_unfold.
  rewrite (call_showSaveFilePicker_run env st w sp _ has_window has_save).
  destruct (sp (saveOptions checklistFile)) as [[h|]|e|]; cbn;
    all_answers; eexists; reflexivity.
Qed.

(** With a handle at hand and no [saveAs], the write goes to that handle and
    no picker shows up. *)
Lemma _saveFileWithFSA_reuses checklistFile st h :
  _currentFileHandle st = Some h ->
  promptsSave (calls (_saveFileWithFSA env checklistFile false st)) = false /\
  exists rest,
    calls (_saveFileWithFSA env checklistFile false st) = CreateWritable h :: rest.
Proof.
  unfold _saveFileWithFSA. js_unfold. intros ->. cbn.
  all_answers; (split; [reflexivity | eexists; reflexivity]).
Qed.

Lemma _saveFileWithFSA_silent checklistFile saveAs st :
  asksLocation saveAs st = false ->
  promptsSave (calls (_saveFileWithFSA env checklistFile saveAs st)) = false.
Proof.
  unfold asksLocation. intros H. apply orb_false_elim in H as [-> H].
  destruct (_currentFileHandle st) as [h|] eqn:Hh; [|discriminate].
  apply (_saveFileWithFSA_reuses checklistFile st h Hh).
Qed.

Lemma _saveFileWithFSA_cancelled checklistFile saveAs st e :
  asksLocation saveAs st = true ->
  sp (saveOptions checklistFile) = Rejected e -> isAbortError e = true ->
  _saveFileWithFSA env checklistFile saveAs st
  = (Fulfilled false, st, [ShowSaveFilePicker (saveOptions checklistFile)]).
Proof.
  unfold _saveFileWithFSA, asksLocation. js_unfold. intros -> Hp Ha. js_unfold.
  rewrite (call_showSaveFilePicker_run env st w sp _ has_window has_save), Hp.
  cbn. rewrite Ha. reflexivity.
Qed.

Lemma _saveFileWithFSA_written checklistFile st h blob :
  _currentFileHandle st = Some h ->
  createWritable env h = Fulfilled tt ->
  fromProto (_jsonFormat st) checklistFile = Fulfilled blob ->
  write env h (File.contents blob) = Fulfilled tt ->
  close env h = Fulfilled tt ->
  _saveFileWithFSA env checklistFile false st
  = (Fulfilled true, st,
     [CreateWritable h; WritableWrite h (File.contents blob); WritableClose h]).
Proof.
  intros Hh Hc Hf Hw Hcl. unfold _saveFileWithFSA. js_unfold.
  rewrite Hh. cbn. rewrite Hc, Hf, Hw, Hcl. reflexivity.
Qed.

End NativeStrategy.

(* ===================================================================== *)
(** * The fallback strategy *)
(* ===================================================================== *)

Lemma _openFileWithFallback_fields env st :
  fields (_openFileWithFallback env st) = st.
Proof.
  unfold _openFileWithFallback. with_document env; [|reflexivity].
  destruct (inputAnswer d) as [files| |]; cbn; [|reflexivity|reflexivity].
  destruct (first_file files) as [file|]; cbn; [|reflexivity].
  js_unfold. all_answers; reflexivity.
Qed.

Lemma _openFileWithFallback_silent env st :
  promptsOpen (calls (_openFileWithFallback env st)) = false.
Proof.
  unfold _openFileWithFallback. with_document env; [|reflexivity].
  destruct (inputAnswer d) as [files| |]; cbn; [|reflexivity|reflexivity].
  destruct (first_file files) as [file|]; cbn; [|reflexivity].
  js_unfold. all_answers; reflexivity.
Qed.

Lemma _saveFileWithFallback_fields env checklistFile st :
  fields (_saveFileWithFallback env checklistFile st) = st.
Proof.
  unfold _saveFileWithFallback. with_document env; all_answers; reflexivity.
Qed.

Lemma _saveFileWithFallback_silent env checklistFile st :
  promptsSave (calls (_saveFileWithFallback env checklistFile st)) = false.
Proof.
  unfold _saveFileWithFallback. with_document env; all_answers; reflexivity.
Qed.

Lemma _saveFileWithFallback_not_rejected env checklistFile st e :
  completion (_saveFileWithFallback env checklistFile st) <> Rejected e.
Proof.
  unfold _saveFileWithFallback. with_document env; all_answers; discriminate.
Qed.

Lemma _saveFileWithFallback_downloads env checklistFile st d blob :
  document env = Some d ->
  fromProto (_jsonFormat st) checklistFile = Fulfilled blob ->
  _saveFileWithFallback env checklistFile st
  = (Fulfilled true, st,
     [CreateObjectURL blob;
      CreateElement "a";
      AppendChild (HTMLAnchorElement (BlobURL blob) (File.name blob));
      Click (HTMLAnchorElement (BlobURL blob) (File.name blob));
      RemoveChild (HTMLAnchorElement (BlobURL blob) (File.name blob));
      RevokeObjectURL (BlobURL blob)]).
Proof.
  intros Hd Hf. unfold _saveFileWithFallback, call_createElement. rewrite Hd.
  js_unfold. rewrite Hf. reflexivity.
Qed.

Lemma _saveFileWithFallback_no_document env checklistFile st blob :
  document env = None ->
  fromProto (_jsonFormat st) checklistFile = Fulfilled blob ->
  _saveFileWithFallback env checklistFile st
  = (Fulfilled false, st,
     [CreateObjectURL blob;
      ConsoleError "Failed to save file:" (ReferenceError "document is not defined")]).
Proof.
  intros Hd Hf. unfold _saveFileWithFallback, call_createElement. rewrite Hd.
  js_unfold. rewrite Hf. reflexivity.
Qed.

Lemma _saveFileWithFallback_encode_failure env checklistFile st e :
  fromProto (_jsonFormat st) checklistFile = Rejected e ->
  _saveFileWithFallback env checklistFile st
  = (Fulfilled false, st, [ConsoleError "Failed to save file:" e]).
Proof.
  intros Hf. unfold _saveFileWithFallback. js_unfold. rewrite Hf. reflexivity.
Qed.

(* ===================================================================== *)
(** * Capability detection *)
(* ===================================================================== *)

(** C8.  [isFileSystemAccessSupported()] answers [false] when there is no
    [window] or when either picker is absent from it, [true] when both are
    present; it assigns no field and calls nothing, and its answer depends on
    the environment only, so asking again in the same environment gives the
    same answer. *)
Theorem isFileSystemAccessSupported_spec (env : Env) (st : LocalFileStorage) :
  (window env = None ->
   completion (isFileSystemAccessSupported env st) = Fulfilled false) /\
  (forall w, window env = Some w ->
     showOpenFilePicker w = None \/ showSaveFilePicker w = None ->
     completion (isFileSystemAccessSupported env st) = Fulfilled false) /\
  (forall w op sp, window env = Some w ->
     showOpenFilePicker w = Some op -> showSaveFilePicker w = Some sp ->
     completion (isFileSystemAccessSupported env st) = Fulfilled true) /\
  fields (isFileSystemAccessSupported env st) = st /\
  calls (isFileSystemAccessSupported env st) = [] /\
  (forall st',
     completion (isFileSystemAccessSupported env st')
     = completion (isFileSystemAccessSupported env st)) /\
  completion (isFileSystemAccessSupported env (fields (isFileSystemAccessSupported env st)))
  = completion (isFileSystemAccessSupported env st).
Proof.
  repeat split.
  - intros H. unfold isFileSystemAccessSupported. rewrite H. reflexivity.
  - intros w Hw [H | H]; unfold isFileSystemAccessSupported; rewrite Hw, H; cbn.
    + reflexivity.
    + destruct (showOpenFilePicker w); reflexivity.
  - intros w op sp Hw Ho Hs. unfold isFileSystemAccessSupported.
    rewrite Hw, Ho, Hs. reflexivity.
  - rewrite isFileSystemAccessSupported_run. reflexivity.
  - rewrite isFileSystemAccessSupported_run. reflexivity.
  - intros st'. unfold isFileSystemAccessSupported.
    destruct (window env); reflexivity.
  - rewrite !isFileSystemAccessSupported_run. cbn.
    unfold nativeStrategy. rewrite !isFileSystemAccessSupported_run. reflexivity.
Qed.

Lemma isFileSystemAccessSupported_spec_witness :
  completion (isFileSystemAccessSupported Sample.server Sample.storage) = Fulfilled false /\
  completion (isFileSystemAccessSupported (Sample.legacy InputCancel) Sample.storage)
  = Fulfilled false /\
  completion
    (isFileSystemAccessSupported
       (Sample.native (Fulfilled [Sample.tripHandle]) Pending "{}") Sample.storage)
  = Fulfilled true.
Proof.
  split; [|split].
  - apply (proj1 (isFileSystemAccessSupported_spec Sample.server Sample.storage)).
    reflexivity.
  - apply (proj1 (proj2
      (isFileSystemAccessSupported_spec (Sample.legacy InputCancel) Sample.storage))
      (mkWindow None None)).
    + reflexivity.
    + left. reflexivity.
  - apply (proj1 (proj2 (proj2
      (isFileSystemAccessSupported_spec
         (Sample.native (Fulfilled [Sample.tripHandle]) Pending "{}") Sample.storage)))
      (mkWindow (Some (fun _ => Fulfilled [Sample.tripHandle])) (Some (fun _ => Pending)))
      (fun _ => Fulfilled [Sample.tripHandle]) (fun _ => Pending));
      reflexivity.
Defined.

(* ===================================================================== *)
(** * Cancelling a picker *)
(* ===================================================================== *)

(** C2.  Under the native strategy, when the picker a call presents rejects
    with an error named [AbortError], the call is fulfilled with the negative
    result: [openFile] with [null], leaving the fields as they were, and
    [saveFile] with [false].  Neither call rejects. *)
Theorem cancel_is_not_an_error
  (env : Env) (st : LocalFileStorage) (w : Window)
  (op : OpenFilePickerOptions -> PromiseState (list FileSystemFileHandle.t))
  (sp : SaveFilePickerOptions -> PromiseState (option FileSystemFileHandle.t))
  (e : JsError.t) :
  window env = Some w ->
  showOpenFilePicker w = Some op ->
  showSaveFilePicker w = Some sp ->
  JsError.name e = "AbortError" ->
  (op openOptions = Rejected e ->
   promptsOpen (calls (openFile env st)) = true /\
   completion (openFile env st) = Fulfilled None /\
   fields (openFile env st) = st) /\
  (forall checklistFile saveAs,
     sp (saveOptions checklistFile) = Rejected e ->
     promptsSave (calls (saveFile env checklistFile saveAs st)) = true ->
     completion (saveFile env checklistFile saveAs st) = Fulfilled false).
Proof.
  intros Hw Ho Hs Hname. apply isAbortError_name in Hname.
  pose proof (native_selected env w op sp Hw Ho Hs st) as Hnative.
  split.
  - intros Hp. rewrite openFile_strategy, Hnative.
    rewrite (_openFileWithFSA_cancelled env w op Hw Ho st e Hp Hname).
    repeat split.
  - intros checklistFile saveAs Hp Hshown.
    rewrite saveFile_strategy, Hnative in *.
    destruct (asksLocation saveAs st) eqn:Hasks.
    + rewrite (_saveFileWithFSA_cancelled env w sp Hw Hs checklistFile saveAs st e
                 Hasks Hp Hname).
      reflexivity.
    + rewrite (_saveFileWithFSA_silent env checklistFile saveAs st Hasks) in Hshown.
      discriminate.
Qed.

Lemma cancel_is_not_an_error_witness :
  JsError.name Sample.abortError = "AbortError" /\
  promptsSave
    (calls (saveFile Sample.cancelling Sample.tripDoc true
              (Sample.storageWith Sample.otherHandle))) = true /\
  (completion (openFile Sample.cancelling (Sample.storageWith Sample.otherHandle))
   = Fulfilled None /\
   fields (openFile Sample.cancelling (Sample.storageWith Sample.otherHandle))
   = Sample.storageWith Sample.otherHandle) /\
  completion (saveFile Sample.cancelling Sample.tripDoc true
                (Sample.storageWith Sample.otherHandle)) = Fulfilled false.
Proof.
  pose proof (cancel_is_not_an_error Sample.cancelling
    (Sample.storageWith Sample.otherHandle) Sample.cancellingWindow
    (fun _ => Rejected Sample.abortError) (fun _ => Rejected Sample.abortError)
    Sample.abortError eq_refl eq_refl eq_refl eq_refl) as [Hopen Hsave].
  split; [reflexivity|]. split; [reflexivity|]. split.
  - apply (Hopen eq_refl).
  - apply (Hsave Sample.tripDoc true eq_refl eq_refl).
Defined.

(** C10.  Under the native strategy, when [saveFile] presents the save picker
    and the picker rejects with an error named [AbortError], the call is
    fulfilled with [false] and the fields, the current handle among them, are
    what they were before the call, whatever the handle and [saveAs] were. *)
Theorem save_cancel_keeps_handle
  (env : Env) (st : LocalFileStorage) (w : Window)
  (op : OpenFilePickerOptions -> PromiseState (list FileSystemFileHandle.t))
  (sp : SaveFilePickerOptions -> PromiseState (option FileSystemFileHandle.t))
  (e : JsError.t) (checklistFile : ChecklistFile) (saveAs : bool) :
  window env = Some w ->
  showOpenFilePicker w = Some op ->
  showSaveFilePicker w = Some sp ->
  JsError.name e = "AbortError" ->
  sp (saveOptions checklistFile) = Rejected e ->
  promptsSave (calls (saveFile env checklistFile saveAs st)) = true ->
  completion (saveFile env checklistFile saveAs st) = Fulfilled false /\
  _currentFileHandle (fields (saveFile env checklistFile saveAs st))
  = _currentFileHandle st /\
  fields (saveFile env checklistFile saveAs st) = st.
Proof.
  intros Hw Ho Hs Hname Hp Hshown. apply isAbortError_name in Hname.
  pose proof (native_selected env w op sp Hw Ho Hs st) as Hnative.
  rewrite saveFile_strategy, Hnative in *.
  destruct (asksLocation saveAs st) eqn:Hasks.
  - rewrite (_saveFileWithFSA_cancelled env w sp Hw Hs checklistFile saveAs st e
               Hasks Hp Hname).
    repeat split.
  - rewrite (_saveFileWithFSA_silent env checklistFile saveAs st Hasks) in Hshown.
    discriminate.
Qed.

Lemma save_cancel_keeps_handle_witness :
  (promptsSave
     (calls (saveFile Sample.cancelling Sample.tripDoc true
               (Sample.storageWith Sample.otherHandle))) = true /\
   completion (saveFile Sample.cancelling Sample.tripDoc true
                 (Sample.storageWith Sample.otherHandle)) = Fulfilled false /\
   _currentFileHandle
     (fields (saveFile Sample.cancelling Sample.tripDoc true
                (Sample.storageWith Sample.otherHandle)))
   = Some Sample.otherHandle) /\
  (promptsSave (calls (saveFile Sample.cancelling Sample.tripDoc false Sample.storage))
   = true /\
   completion (saveFile Sample.cancelling Sample.tripDoc false Sample.storage)
   = Fulfilled false /\
   _currentFileHandle
     (fields (saveFile Sample.cancelling Sample.tripDoc false Sample.storage)) = None).
Proof.
  pose proof (fun st saveAs => save_cancel_keeps_handle Sample.cancelling st
    Sample.cancellingWindow
    (fun _ => Rejected Sample.abortError) (fun _ => Rejected Sample.abortError)
    Sample.abortError Sample.tripDoc saveAs eq_refl eq_refl eq_refl eq_refl eq_refl) as H.
  split.
  - split; [reflexivity|].
    destruct (H (Sample.storageWith Sample.otherHandle) true eq_refl) as (Hc & Hh & _).
    split; [exact Hc | exact Hh].
  - split; [reflexivity|].
    destruct (H Sample.storage false eq_refl) as (Hc & Hh & _).
    split; [exact Hc | exact Hh].
Defined.

(* ===================================================================== *)
(** * Saving under the native strategy *)
(* ===================================================================== *)

(** C3.  Under the native strategy, [saveFile(doc, true)] first presents the
    save picker, whatever handle is held; when the picker is answered with a
    handle, that handle is the current one after the call. *)
Theorem saveAs_prompts_and_stores
  (env : Env) (st : LocalFileStorage) (w : Window)
  (op : OpenFilePickerOptions -> PromiseState (list FileSystemFileHandle.t))
  (sp : SaveFilePickerOptions -> PromiseState (option FileSystemFileHandle.t))
  (checklistFile : ChecklistFile) :
  window env = Some w ->
  showOpenFilePicker w = Some op ->
  showSaveFilePicker w = Some sp ->
  (exists rest,
     calls (saveFile env checklistFile true st)
     = ShowSaveFilePicker (saveOptions checklistFile) :: rest) /\
  (forall h,
     sp (saveOptions checklistFile) = Fulfilled (Some h) ->
     _currentFileHandle (fields (saveFile env checklistFile true st)) = Some h).
Proof.
  intros Hw Ho Hs.
  pose proof (native_selected env w op sp Hw Ho Hs st) as Hnative.
  rewrite saveFile_strategy, Hnative. split.
  - apply (_saveFileWithFSA_prompts env w sp Hw Hs). reflexivity.
  - intros h Hp.
    rewrite (_saveFileWithFSA_fields env w sp Hw Hs). cbn. rewrite Hp.
    reflexivity.
Qed.

Lemma saveAs_prompts_and_stores_witness :
  (exists rest,
     calls (saveFile Sample.picking Sample.tripDoc true
              (Sample.storageWith Sample.tripHandle))
     = ShowSaveFilePicker (saveOptions Sample.tripDoc) :: rest) /\
  _currentFileHandle
    (fields (saveFile Sample.picking Sample.tripDoc true
               (Sample.storageWith Sample.tripHandle)))
  = Some Sample.otherHandle.
Proof.
  pose proof (saveAs_prompts_and_stores Sample.picking
    (Sample.storageWith Sample.tripHandle) Sample.pickingWindow
    (fun _ => Fulfilled [Sample.tripHandle])
    (fun _ => Fulfilled (Some Sample.otherHandle))
    Sample.tripDoc eq_refl eq_refl eq_refl) as [Hprompt Hstore].
  split.
  - exact Hprompt.
  - apply (Hstore Sample.otherHandle eq_refl).
Defined.

(** C4.  Under the native strategy, an [openFile] that succeeds leaves the
    handle the picker returned as the current one; a [saveFile(doc, false)]
    that follows presents no save picker and goes straight to that handle:
    its first call is [createWritable] on it, and when the codec and the
    handle's stream answer, the document's bytes are written to it and the
    call is fulfilled with [true]. *)
Theorem open_then_save_reuses_handle
  (env : Env) (st : LocalFileStorage) (w : Window)
  (op : OpenFilePickerOptions -> PromiseState (list FileSystemFileHandle.t))
  (sp : SaveFilePickerOptions -> PromiseState (option FileSystemFileHandle.t))
  (h : FileSystemFileHandle.t) (others : list FileSystemFileHandle.t)
  (opened : ChecklistFile) :
  window env = Some w ->
  showOpenFilePicker w = Some op ->
  showSaveFilePicker w = Some sp ->
  op openOptions = Fulfilled (h :: others) ->
  completion (openFile env st) = Fulfilled (Some opened) ->
  _currentFileHandle (fields (openFile env st)) = Some h /\
  forall env' checklistFile,
    nativeStrategy env' (fields (openFile env st)) = true ->
    promptsSave (calls (saveFile env' checklistFile false (fields (openFile env st))))
    = false /\
    (exists rest,
       calls (saveFile env' checklistFile false (fields (openFile env st)))
       = CreateWritable h :: rest) /\
    (forall blob,
       createWritable env' h = Fulfilled tt ->
       fromProto (_jsonFormat st) checklistFile = Fulfilled blob ->
       write env' h (File.contents blob) = Fulfilled tt ->
       close env' h = Fulfilled tt ->
       saveFile env' checklistFile false (fields (openFile env st))
       = (Fulfilled true, fields (openFile env st),
          [CreateWritable h; WritableWrite h (File.contents blob); WritableClose h])).
Proof.
  intros Hw Ho Hs Hp Hopened.
  pose proof (native_selected env w op sp Hw Ho Hs st) as Hnative.
  assert (Hfields : fields (openFile env st) = set_currentFileHandle (Some h) st).
  { rewrite openFile_strategy, Hnative.
    rewrite (_openFileWithFSA_fields env w op Hw Ho), Hp. reflexivity. }
  rewrite Hfields. split; [reflexivity|].
  intros env' checklistFile Hnative'.
  rewrite saveFile_strategy, Hnative'.
  apply nativeStrategy_true in Hnative' as (w' & op' & sp' & Hw' & Ho' & Hs').
  destruct (_saveFileWithFSA_reuses env' checklistFile
              (set_currentFileHandle (Some h) st) h eq_refl) as [Hsilent Hfirst].
  split; [exact Hsilent|]. split; [exact Hfirst|].
  intros blob Hc Hf Hwr Hcl.
  apply _saveFileWithFSA_written; auto.
Qed.

Lemma open_then_save_reuses_handle_witness :
  completion (openFile Sample.picking Sample.storage)
  = Fulfilled (Some (mkChecklistFile (Some (ChecklistFileMetadata.make "trip.json")) [])) /\
  _currentFileHandle (fields (openFile Sample.picking Sample.storage))
  = Some Sample.tripHandle /\
  saveFile Sample.cancelling Sample.tripDoc false
    (fields (openFile Sample.picking Sample.storage))
  = (Fulfilled true, fields (openFile Sample.picking Sample.storage),
     [CreateWritable Sample.tripHandle;
      WritableWrite Sample.tripHandle "{}";
      WritableClose Sample.tripHandle]).
Proof.
  pose proof (open_then_save_reuses_handle Sample.picking Sample.storage
    Sample.pickingWindow
    (fun _ => Fulfilled [Sample.tripHandle])
    (fun _ => Fulfilled (Some Sample.otherHandle))
    Sample.tripHandle [] _ eq_refl eq_refl eq_refl eq_refl eq_refl) as [Hstored Hsave].
  split; [reflexivity|]. split; [exact Hstored|].
  destruct (Hsave Sample.cancelling Sample.tripDoc eq_refl) as (_ & _ & Hwritten).
  apply (Hwritten (File.make "trip.json" "{}")); reflexivity.
Defined.

(* ===================================================================== *)
(** * Clearing the handle *)
(* ===================================================================== *)

(** C5, as stated, fails: in a browser without the pickers the save that
    follows [clearFileHandle()] presents no picker at all. *)
Lemma clear_then_save_without_pickers_no_prompt :
  promptsSave
    (calls (saveFile (Sample.legacy InputNoEvent) Sample.tripDoc false
              (fields (clearFileHandle (Sample.storageWith Sample.tripHandle)))))
  <> true.
Proof. vm_compute. discriminate. Qed.

(** C5, amended.  After [clearFileHandle()] no handle is held, and the next
    [saveFile], for every document and either value of [saveAs], first
    presents the save picker when it runs under the native strategy.  Under
    the fallback strategy it presents no picker and leaves the fields as
    [clearFileHandle()] left them; there, when a [document] exists and the
    codec encodes the document, the blob is downloaded instead: the anchor
    carrying it under its name is clicked and the call is fulfilled with
    [true]. *)
Theorem clear_then_save_prompts
  (env : Env) (st : LocalFileStorage) (checklistFile : ChecklistFile) (saveAs : bool) :
  _currentFileHandle (fields (clearFileHandle st)) = None /\
  (nativeStrategy env (fields (clearFileHandle st)) = true ->
   exists rest,
     calls (saveFile env checklistFile saveAs (fields (clearFileHandle st)))
     = ShowSaveFilePicker (saveOptions checklistFile) :: rest) /\
  (nativeStrategy env (fields (clearFileHandle st)) = false ->
   promptsSave (calls (saveFile env checklistFile saveAs (fields (clearFileHandle st))))
   = false /\
   fields (saveFile env checklistFile saveAs (fields (clearFileHandle st)))
   = fields (clearFileHandle st) /\
   forall d blob,
     document env = Some d ->
     fromProto (_jsonFormat st) checklistFile = Fulfilled blob ->
     saveFile env checklistFile saveAs (fields (clearFileHandle st))
     = (Fulfilled true, fields (clearFileHandle st),
        [CreateObjectURL blob;
         CreateElement "a";
         AppendChild (HTMLAnchorElement (BlobURL blob) (File.name blob));
         Click (HTMLAnchorElement (BlobURL blob) (File.name blob));
         RemoveChild (HTMLAnchorElement (BlobURL blob) (File.name blob));
         RevokeObjectURL (BlobURL blob)])).
Proof.
  split; [reflexivity|]. split.
  - intros Hnative. rewrite saveFile_strategy, Hnative.
    apply nativeStrategy_true in Hnative as (w & op & sp & Hw & Ho & Hs).
    apply (_saveFileWithFSA_prompts env w sp Hw Hs).
    unfold asksLocation. cbn. apply orb_true_r.
  - intros Hfallback. rewrite saveFile_strategy, Hfallback. split; [|split].
    + apply _saveFileWithFallback_silent.
    + apply _saveFileWithFallback_fields.
    + intros d blob Hd Hf.
      apply (_saveFileWithFallback_downloads env checklistFile
               (fields (clearFileHandle st)) d blob Hd).
      exact Hf.
Qed.

Lemma clear_then_save_prompts_witness :
  (exists rest,
     calls (saveFile Sample.picking Sample.tripDoc false
              (fields (clearFileHandle (Sample.storageWith Sample.tripHandle))))
     = ShowSaveFilePicker (saveOptions Sample.tripDoc) :: rest) /\
  promptsSave
    (calls (saveFile (Sample.legacy InputNoEvent) Sample.tripDoc false
              (fields (clearFileHandle (Sample.storageWith Sample.tripHandle)))))
  = false /\
  completion
    (saveFile (Sample.legacy InputNoEvent) Sample.tripDoc false
       (fields (clearFileHandle (Sample.storageWith Sample.tripHandle))))
  = Fulfilled true.
Proof.
  split; [|split].
  - apply (proj1 (proj2 (clear_then_save_prompts Sample.picking
             (Sample.storageWith Sample.tripHandle) Sample.tripDoc false))).
    reflexivity.
  - apply (proj2 (proj2 (clear_then_save_prompts (Sample.legacy InputNoEvent)
             (Sample.storageWith Sample.tripHandle) Sample.tripDoc false))).
    reflexivity.
  - destruct (proj2 (proj2 (clear_then_save_prompts (Sample.legacy InputNoEvent)
                (Sample.storageWith Sample.tripHandle) Sample.tripDoc false)) eq_refl)
      as (_ & _ & Hdownload).
    rewrite (Hdownload (mkDocument InputNoEvent) (File.make "trip.json" "{}")
               eq_refl eq_refl).
    reflexivity.
Defined.

(* ===================================================================== *)
(** * The fallback paths *)
(* ===================================================================== *)

(** C6, as stated, fails: where no [document] is defined the codec encodes
    the document, yet nothing is downloaded and the call is fulfilled with
    [false]. *)
Lemma fallback_save_without_document_returns_false :
  nativeStrategy Sample.server Sample.storage = false /\
  fromProto (_jsonFormat Sample.storage) Sample.tripDoc
  = Fulfilled (File.make "trip.json" "{}") /\
  saveFile Sample.server Sample.tripDoc false Sample.storage
  = (Fulfilled false, Sample.storage,
     [CreateObjectURL (File.make "trip.json" "{}");
      ConsoleError "Failed to save file:" (ReferenceError "document is not defined")]).
Proof. repeat split. Qed.

(** C6, amended.  When capability detection answers [false],
    [saveFile(doc, saveAs)] leaves the fields untouched and never rejects.
    Where a [document] exists: when the codec encodes the document into a
    blob, the call creates an object URL for it, clicks an anchor whose
    [download] is the blob's name, cleans up and is fulfilled with [true];
    when the codec rejects, the error is written to the console and the call
    is fulfilled with [false].  Where no [document] is defined the codec's
    rejection is handled the same way, and after a successful encoding the
    reference error is written to the console, no anchor is clicked and the
    call is fulfilled with [false]. *)
Theorem fallback_save_downloads
  (env : Env) (st : LocalFileStorage) (checklistFile : ChecklistFile) (saveAs : bool) :
  nativeStrategy env st = false ->
  fields (saveFile env checklistFile saveAs st) = st /\
  (forall e, completion (saveFile env checklistFile saveAs st) <> Rejected e) /\
  (forall d blob,
     document env = Some d ->
     fromProto (_jsonFormat st) checklistFile = Fulfilled blob ->
     saveFile env checklistFile saveAs st
     = (Fulfilled true, st,
        [CreateObjectURL blob;
         CreateElement "a";
         AppendChild (HTMLAnchorElement (BlobURL blob) (File.name blob));
         Click (HTMLAnchorElement (BlobURL blob) (File.name blob));
         RemoveChild (HTMLAnchorElement (BlobURL blob) (File.name blob));
         RevokeObjectURL (BlobURL blob)])) /\
  (forall e,
     fromProto (_jsonFormat st) checklistFile = Rejected e ->
     saveFile env checklistFile saveAs st
     = (Fulfilled false, st, [ConsoleError "Failed to save file:" e])) /\
  (forall blob,
     document env = None ->
     fromProto (_jsonFormat st) checklistFile = Fulfilled blob ->
     saveFile env checklistFile saveAs st
     = (Fulfilled false, st,
        [CreateObjectURL blob;
         ConsoleError "Failed to save file:"
           (ReferenceError "document is not defined")])).
Proof.
  intros Hfallback. rewrite saveFile_strategy, Hfallback.
  split; [apply _saveFileWithFallback_fields|].
  split; [intros e; apply _saveFileWithFallback_not_rejected|].
  split; [|split].
  - intros d blob Hd Hf. apply (_saveFileWithFallback_downloads _ _ _ d); assumption.
  - intros e Hf. apply _saveFileWithFallback_encode_failure. exact Hf.
  - intros blob Hd Hf. apply _saveFileWithFallback_no_document; assumption.
Qed.

Lemma fallback_save_downloads_witness :
  nativeStrategy (Sample.legacy InputNoEvent) Sample.storage = false /\
  completion (saveFile (Sample.legacy InputNoEvent) Sample.tripDoc false Sample.storage)
  = Fulfilled true /\
  calls (saveFile (Sample.legacy InputNoEvent) Sample.tripDoc false Sample.storage)
  = [CreateObjectURL (File.make "trip.json" "{}");
     CreateElement "a";
     AppendChild (HTMLAnchorElement (BlobURL (File.make "trip.json" "{}")) "trip.json");
     Click (HTMLAnchorElement (BlobURL (File.make "trip.json" "{}")) "trip.json");
     RemoveChild (HTMLAnchorElement (BlobURL (File.make "trip.json" "{}")) "trip.json");
     RevokeObjectURL (BlobURL (File.make "trip.json" "{}"))] /\
  saveFile (Sample.legacy InputNoEvent) (mkChecklistFile None []) true Sample.storage
  = (Fulfilled false, Sample.storage,
     [ConsoleError "Failed to save file:" (Error "missing metadata")]) /\
  completion (saveFile Sample.server Sample.tripDoc true Sample.storage)
  = Fulfilled false.
Proof.
  split; [reflexivity|].
  destruct (fallback_save_downloads (Sample.legacy InputNoEvent) Sample.storage
              Sample.tripDoc false eq_refl) as (_ & _ & Hok & _ & _).
  destruct (fallback_save_downloads (Sample.legacy InputNoEvent) Sample.storage
              (mkChecklistFile None []) true eq_refl) as (_ & _ & _ & Hko & _).
  destruct (fallback_save_downloads Sample.server Sample.storage
              Sample.tripDoc true eq_refl) as (_ & _ & _ & _ & Hnone).
  rewrite (Hok (mkDocument InputNoEvent) (File.make "trip.json" "{}") eq_refl eq_refl).
  rewrite (Hnone (File.make "trip.json" "{}") eq_refl eq_refl).
  split; [reflexivity|]. split; [reflexivity|]. split; [|reflexivity].
  apply (Hko (Error "missing metadata") eq_refl).
Defined.

(** C7.  When capability detection answers [false] and the user selects a
    file that the codec fails to decode, [openFile] is fulfilled with [null],
    the error is written to the console, nothing is thrown and the fields are
    untouched. *)
Theorem fallback_open_decode_failure
  (env : Env) (st : LocalFileStorage) (file : File.t) (others : list File.t)
  (e : JsError.t) :
  nativeStrategy env st = false ->
  fileInput env = InputChange (Some (file :: others)) ->
  toProto (_jsonFormat st) file = Rejected e ->
  openFile env st
  = (Fulfilled None, st,
     [CreateElement "input";
      Click (HTMLInputElement "file" ".json");
      ConsoleError "Failed to parse file:" e]).
Proof.
  intros Hfallback Hinput Hdecode.
  rewrite openFile_strategy, Hfallback.
  unfold _openFileWithFallback, call_createElement. unfold fileInput in *.
  destruct (document env) as [d|]; [|discriminate].
  js_unfold. rewrite Hinput. cbn. js_unfold.
  rewrite Hdecode. reflexivity.
Qed.

Lemma fallback_open_decode_failure_witness :
  nativeStrategy (Sample.legacy (InputChange (Some [File.make "notes.json" "oops"])))
    Sample.storage = false /\
  openFile (Sample.legacy (InputChange (Some [File.make "notes.json" "oops"])))
    Sample.storage
  = (Fulfilled None, Sample.storage,
     [CreateElement "input";
      Click (HTMLInputElement "file" ".json");
      ConsoleError "Failed to parse file:" Sample.syntaxError]).
Proof.
  split; [reflexivity|].
  apply (fallback_open_decode_failure
           (Sample.legacy (InputChange (Some [File.make "notes.json" "oops"])))
           Sample.storage (File.make "notes.json" "oops") [] Sample.syntaxError);
    reflexivity.
Defined.

(* ===================================================================== *)
(** * The command bar *)
(* ===================================================================== *)

Lemma truthy_string_nonempty s : truthy_string s = true <-> s <> "".
Proof.
  unfold truthy_string. destruct (String.eqb_spec s ""); cbn; split; intros H;
    congruence.
Qed.

(** C9.  [onNewFile] opens the title dialog and emits [newFile] with the
    title the dialog resolved to exactly when that title is a non-empty
    string; on [undefined] or the empty string it emits nothing.
    [onDeleteFile] opens the confirmation dialog and emits [deleteFile] with
    [true] exactly when the dialog resolved to [true]. *)
Theorem dialog_gated_emits
  (dialog : CommandBar.Dialogs) (st : CommandBar.ChecklistCommandBarComponent) :
  (exists rest,
     calls (CommandBar.onNewFile dialog st)
     = CommandBar.OpenTitleDialog CommandBar.titleData :: rest) /\
  (forall title,
     CommandBar.promptForTitle dialog CommandBar.titleData = Fulfilled (Some title) ->
     title <> "" ->
     CommandBar.emitted (calls (CommandBar.onNewFile dialog st))
     = [CommandBar.newFile title]) /\
  (forall o,
     In o (CommandBar.emitted (calls (CommandBar.onNewFile dialog st))) ->
     exists title,
       o = CommandBar.newFile title /\
       CommandBar.promptForTitle dialog CommandBar.titleData = Fulfilled (Some title) /\
       title <> "") /\
  (CommandBar.promptForTitle dialog CommandBar.titleData = Fulfilled None \/
   CommandBar.promptForTitle dialog CommandBar.titleData = Fulfilled (Some "") ->
   CommandBar.emitted (calls (CommandBar.onNewFile dialog st)) = []) /\
  (exists rest,
     calls (CommandBar.onDeleteFile dialog st)
     = CommandBar.OpenDeleteDialog CommandBar.deleteData :: rest) /\
  (CommandBar.confirmDeletion dialog CommandBar.deleteData = Fulfilled true ->
   CommandBar.emitted (calls (CommandBar.onDeleteFile dialog st))
   = [CommandBar.deleteFile true]) /\
  (forall o,
     In o (CommandBar.emitted (calls (CommandBar.onDeleteFile dialog st))) ->
     o = CommandBar.deleteFile true /\
     CommandBar.confirmDeletion dialog CommandBar.deleteData = Fulfilled true).
Proof.
  unfold CommandBar.onNewFile, CommandBar.onDeleteFile. js_unfold.
  destruct (CommandBar.promptForTitle dialog CommandBar.titleData) as [[title|]|e|] eqn:Htitle;
    [destruct (truthy_string title) eqn:Htruthy|..];
    (destruct (CommandBar.confirmDeletion dialog CommandBar.deleteData) as [[|]|e'|] eqn:Hconfirm);
    cbn;
    (split; [eexists; reflexivity|]);
    (split; [intros t Ht Hne; try discriminate; injection Ht as <-;
             try reflexivity;
             apply truthy_string_nonempty in Hne; congruence|]);
    (split; [intros o Ho; try contradiction; destruct Ho as [<-|[]];
             exists title; repeat split; apply truthy_string_nonempty; assumption|]);
    (split; [intros [H|H]; try reflexivity; try discriminate;
             injection H as ->; discriminate|]);
    (split; [eexists; reflexivity|]);
    (split; [intros H; try discriminate; reflexivity|]);
    intros o Ho; try contradiction; destruct Ho as [<-|[]]; split; reflexivity.
Qed.

Lemma dialog_gated_emits_witness :
  CommandBar.emitted
    (calls (CommandBar.onNewFile (Sample.answering (Some "Cessna 172") true)
              Sample.commandBar))
  = [CommandBar.newFile "Cessna 172"] /\
  CommandBar.emitted
    (calls (CommandBar.onNewFile (Sample.answering (Some "") true) Sample.commandBar))
  = [] /\
  CommandBar.emitted
    (calls (CommandBar.onDeleteFile (Sample.answering None true) Sample.commandBar))
  = [CommandBar.deleteFile true].
Proof.
  destruct (dialog_gated_emits (Sample.answering (Some "Cessna 172") true)
              Sample.commandBar) as (_ & Hnew & _ & _ & _ & _ & _).
  destruct (dialog_gated_emits (Sample.answering (Some "") true)
              Sample.commandBar) as (_ & _ & _ & Hempty & _ & _ & _).
  destruct (dialog_gated_emits (Sample.answering None true)
              Sample.commandBar) as (_ & _ & _ & _ & _ & Hdelete & _).
  split; [|split].
  - apply (Hnew "Cessna 172" eq_refl). discriminate.
  - apply Hempty. right. reflexivity.
  - apply Hdelete. reflexivity.
Defined.

(* ===================================================================== *)
(** * Where a held handle comes from *)
(* ===================================================================== *)

Lemma final_snoc cs c st : final (cs ++ [c])%list st = step c (final cs st).
Proof. unfold final. rewrite fold_left_app. reflexivity. Qed.

Lemma hasFileHandle_run st :
  hasFileHandle st = (Fulfilled (is_some (_currentFileHandle st)), st, []).
Proof. reflexivity. Qed.

Lemma getCurrentFileName_fields st : fields (getCurrentFileName st) = st.
Proof.
  unfold getCurrentFileName. js_unfold. destruct (_currentFileHandle st); reflexivity.
Qed.

(** A call that leaves a handle behind either picked it natively or found it
    there, in which case it is not [clearFileHandle] and picked nothing. *)
Lemma step_handle c st h :
  _currentFileHandle (step c st) = Some h ->
  PickedNatively st h c \/
  (c <> CallClearFileHandle /\
   _currentFileHandle st = Some h /\
   forall h', ~ PickedNatively st h' c).
Proof.
  destruct c as [env|env|env checklistFile saveAs| | |]; cbn [step].
  - rewrite isFileSystemAccessSupported_run. cbn. intros H. right.
    repeat split; [discriminate | exact H | intros h' P; inversion P].
  - rewrite openFile_strategy. destruct (nativeStrategy env st) eqn:Hnative.
    + pose proof Hnative as Hglobals.
      apply nativeStrategy_true in Hglobals as (w & op & sp & Hw & Ho & Hs).
      rewrite (_openFileWithFSA_fields env w op Hw Ho).
      pose proof (call_showOpenFilePicker_run env st w op Hw Ho) as Hcall.
      destruct (op openOptions) as [[|h0 hs]|e|] eqn:Hp; cbn; intros H.
      * discriminate.
      * injection H as <-. left. apply (picked_by_open st h0 env hs Hnative).
        rewrite Hcall. reflexivity.
      * right. repeat split; [discriminate | exact H |].
        intros h' P. inversion P as [env' rest _ Hc|]; subst.
        rewrite Hcall in Hc. discriminate.
      * right. repeat split; [discriminate | exact H |].
        intros h' P. inversion P as [env' rest _ Hc|]; subst.
        rewrite Hcall in Hc. discriminate.
    + rewrite _openFileWithFallback_fields. intros H. right.
      repeat split; [discriminate | exact H |].
      intros h' P. inversion P; congruence.
  - rewrite saveFile_strategy. destruct (nativeStrategy env st) eqn:Hnative.
    + pose proof Hnative as Hglobals.
      apply nativeStrategy_true in Hglobals as (w & op & sp & Hw & Ho & Hs).
      rewrite (_saveFileWithFSA_fields env w sp Hw Hs).
      pose proof (call_showSaveFilePicker_run env st w sp (saveOptions checklistFile) Hw Hs)
        as Hcall.
      destruct (asksLocation saveAs st) eqn:Hasks.
      * assert (Hshown :
          promptsSave (calls (saveFile env checklistFile saveAs st)) = true).
        { rewrite saveFile_strategy, Hnative.
          destruct (_saveFileWithFSA_prompts env w sp Hw Hs checklistFile saveAs st Hasks)
            as [rest ->].
          reflexivity. }
        destruct (sp (saveOptions checklistFile)) as [[h0|]|e|] eqn:Hp; cbn; intros H.
        -- injection H as <-. left.
           apply (picked_by_save st h0 env checklistFile saveAs Hnative Hshown).
           rewrite Hcall. reflexivity.
        -- discriminate.
        -- right. repeat split; [discriminate | exact H |].
           intros h' P. inversion P as [|env' c' s' _ _ Hc]; subst.
           rewrite Hcall in Hc. discriminate.
        -- right. repeat split; [discriminate | exact H |].
           intros h' P. inversion P as [|env' c' s' _ _ Hc]; subst.
           rewrite Hcall in Hc. discriminate.
      * intros H. right. repeat split; [discriminate | exact H |].
        intros h' P. inversion P as [|env' c' s' _ Hshown _]; subst.
        rewrite saveFile_strategy, Hnative in Hshown.
        rewrite (_saveFileWithFSA_silent env checklistFile saveAs st Hasks) in Hshown.
        discriminate.
    + rewrite _saveFileWithFallback_fields. intros H. right.
      repeat split; [discriminate | exact H |].
      intros h' P. inversion P; congruence.
  - cbn. discriminate.
  - cbn. intros H. right.
    repeat split; [discriminate | exact H | intros h' P; inversion P].
  - rewrite getCurrentFileName_fields. intros H. right.
    repeat split; [discriminate | exact H | intros h' P; inversion P].
Qed.

(** Splitting a list that ends in [c] at one of its elements. *)
Lemma split_snoc {A} (l mid rest : list A) (c c' : A) :
  (l ++ [c] = mid ++ c' :: rest)%list ->
  (rest = [] /\ mid = l /\ c' = c) \/
  (exists rest', rest = (rest' ++ [c])%list /\ l = (mid ++ c' :: rest')%list).
Proof.
  induction rest as [|r rest0 _] using rev_ind; intros H.
  - left. apply app_inj_tail in H as [-> ->]. auto.
  - right. exists rest0.
    change (mid ++ c' :: rest0 ++ [r])%list with (mid ++ (c' :: rest0) ++ [r])%list in H.
    rewrite app_assoc in H. apply app_inj_tail in H as [-> ->]. auto.
Qed.

(** C1, as stated, fails: the picker hands over a file the codec cannot
    decode; [openFile] rejects, yet the handle is held afterwards. *)
Lemma handle_held_after_failed_open :
  ~ HandleImpliesLastCallSucceeded [CallOpenFile Sample.garbled] Sample.storage.
Proof.
  intros H. destruct (H eq_refl) as (c & st & Hlast & Hok).
  cbn in Hlast. injection Hlast as <- <-.
  vm_compute in Hok. discriminate.
Qed.

(** The same happens by design when a later call is cancelled: the handle of
    the earlier open stays although the most recent call saved nothing. *)
Lemma handle_held_after_cancelled_save :
  ~ HandleImpliesLastCallSucceeded
      [CallOpenFile Sample.picking; CallSaveFile Sample.cancelling Sample.tripDoc true]
      Sample.storage.
Proof.
  intros H. destruct (H eq_refl) as (c & st & Hlast & Hok).
  cbn in Hlast. injection Hlast as <- <-.
  vm_compute in Hok. discriminate.
Qed.

(** C1, amended.  Over every sequence of calls on a fresh service: when a
    handle is held, the sequence contains a call of [openFile] or [saveFile]
    that went through the native strategy and whose picker was answered with
    exactly that handle; no [clearFileHandle()] came after it and no later
    call had a picker answered with a handle.  Under the fallback strategy
    neither [openFile] nor [saveFile] changes the fields. *)
Theorem held_handle_was_picked_natively (jsonFormat : Format) (cs : list Call) :
  (completion (hasFileHandle (final cs (new_LocalFileStorage jsonFormat))) = Fulfilled true ->
   exists h before c after,
     _currentFileHandle (final cs (new_LocalFileStorage jsonFormat)) = Some h /\
     cs = (before ++ c :: after)%list /\
     PickedNatively (final before (new_LocalFileStorage jsonFormat)) h c /\
     ~ In CallClearFileHandle after /\
     (forall mid c' rest h',
        after = (mid ++ c' :: rest)%list ->
        ~ PickedNatively
            (final (before ++ c :: mid)%list (new_LocalFileStorage jsonFormat)) h' c')) /\
  (forall env st,
     nativeStrategy env st = false ->
     fields (openFile env st) = st /\
     forall checklistFile saveAs, fields (saveFile env checklistFile saveAs st) = st).
Proof.
  split.
  - rewrite hasFileHandle_run. cbn.
    induction cs as [|c cs IH] using rev_ind.
    + cbn. discriminate.
    + rewrite final_snoc.
      destruct (_currentFileHandle (step c (final cs (new_LocalFileStorage jsonFormat))))
        as [h|] eqn:Hh; cbn; [intros _|discriminate].
      destruct (step_handle _ _ _ Hh) as [Hpicked | (Hnot_clear & Hold & Hnot_picked)].
      * exists h, cs, c, []. repeat split; auto.
        intros mid c' rest h' Hsplit. destruct mid; discriminate.
      * rewrite Hold in IH.
        destruct (IH eq_refl) as (h0 & before & c0 & after & Hh0 & -> & P & Hclear & Hlater).
        injection Hh0 as <-.
        exists h, before, c0, (after ++ [c])%list. repeat split.
        -- rewrite <- app_assoc. reflexivity.
        -- exact P.
        -- intros Hin. apply in_app_or in Hin as [Hin | [Hin | []]]; auto.
        -- intros mid c' rest h' Hsplit.
           apply split_snoc in Hsplit as [(-> & -> & ->) | (rest' & -> & ->)].
           ++ apply Hnot_picked.
           ++ apply (Hlater mid c' rest' h'). reflexivity.
  - intros env st Hfallback. split.
    + rewrite openFile_strategy, Hfallback. apply _openFileWithFallback_fields.
    + intros checklistFile saveAs. rewrite saveFile_strategy, Hfallback.
      apply _saveFileWithFallback_fields.
Qed.

Lemma held_handle_was_picked_natively_witness :
  completion
    (hasFileHandle
       (final [CallOpenFile Sample.garbled;
               CallSaveFile Sample.cancelling Sample.tripDoc true;
               CallHasFileHandle]
          (new_LocalFileStorage Sample.jsonFormat))) = Fulfilled true /\
  exists h before c after,
    _currentFileHandle
      (final [CallOpenFile Sample.garbled;
              CallSaveFile Sample.cancelling Sample.tripDoc true;
              CallHasFileHandle]
         (new_LocalFileStorage Sample.jsonFormat)) = Some h /\
    [CallOpenFile Sample.garbled;
     CallSaveFile Sample.cancelling Sample.tripDoc true;
     CallHasFileHandle] = (before ++ c :: after)%list /\
    PickedNatively (final before (new_LocalFileStorage Sample.jsonFormat)) h c /\
    ~ In CallClearFileHandle after.
Proof.
  split; [reflexivity|].
  destruct (proj1 (held_handle_was_picked_natively Sample.jsonFormat
              [CallOpenFile Sample.garbled;
               CallSaveFile Sample.cancelling Sample.tripDoc true;
               CallHasFileHandle]) eq_refl)
    as (h & before & c & after & Hh & Hsplit & P & Hclear & _).
  exists h, before, c, after. auto.
Defined.

(* ===================================================================== *)
(** * Further properties of the native strategy *)
(* ===================================================================== *)

Lemma isAbortError_other e : JsError.name e <> "AbortError" -> isAbortError e = false.
Proof. unfold isAbortError. intros H. apply String.eqb_neq. exact H. Qed.


Ltac open_native Hw Ho Hs :=
  rewrite openFile_strategy, (native_selected _ _ _ _ Hw Ho Hs);
  unfold _openFileWithFSA; js_unfold;
  rewrite (call_showOpenFilePicker_run _ _ _ _ Hw Ho).

Ltac save_native Hw Ho Hs :=
  rewrite saveFile_strategy, (native_selected _ _ _ _ Hw Ho Hs);
  unfold _saveFileWithFSA; js_unfold.

(** X1.  Under the native strategy an error of a picker that is not named
    [AbortError] is rethrown unchanged: [openFile], and a [saveFile] that asks
    for a location, reject with that very error after the one picker call,
    and the fields stay as they were. *)
Theorem picker_errors_propagate
  (env : Env) (st : LocalFileStorage) (w : Window)
  (op : OpenFilePickerOptions -> PromiseState (list FileSystemFileHandle.t))
  (sp : SaveFilePickerOptions -> PromiseState (option FileSystemFileHandle.t))
  (e : JsError.t) :
  window env = Some w ->
  showOpenFilePicker w = Some op ->
  showSaveFilePicker w = Some sp ->
  JsError.name e <> "AbortError" ->
  (op openOptions = Rejected e ->
   openFile env st = (Rejected e, st, [ShowOpenFilePicker openOptions])) /\
  (forall checklistFile saveAs,
     asksLocation saveAs st = true ->
     sp (saveOptions checklistFile) = Rejected e ->
     saveFile env checklistFile saveAs st
     = (Rejected e, st, [ShowSaveFilePicker (saveOptions checklistFile)])).
Proof.
  intros Hw Ho Hs Hname. apply isAbortError_other in Hname. split.
  - intros Hp. open_native Hw Ho Hs. rewrite Hp. cbn. rewrite Hname. reflexivity.
  - intros checklistFile saveAs Hasks Hp. save_native Hw Ho Hs.
    unfold asksLocation in Hasks. rewrite Hasks. js_unfold.
    rewrite (call_showSaveFilePicker_run _ _ _ _ _ Hw Hs), Hp. cbn.
    rewrite Hname. reflexivity.
Qed.

Lemma picker_errors_propagate_witness :
  JsError.name Scenario.denied <> "AbortError" /\
  openFile
    (Scenario.browser (Rejected Scenario.denied) (Rejected Scenario.denied)
       Pending Pending Pending Pending)
    (Sample.storageWith Sample.tripHandle)
  = (Rejected Scenario.denied, Sample.storageWith Sample.tripHandle,
     [ShowOpenFilePicker openOptions]) /\
  saveFile
    (Scenario.browser (Rejected Scenario.denied) (Rejected Scenario.denied)
       Pending Pending Pending Pending)
    Sample.tripDoc true (Sample.storageWith Sample.tripHandle)
  = (Rejected Scenario.denied, Sample.storageWith Sample.tripHandle,
     [ShowSaveFilePicker (saveOptions Sample.tripDoc)]).
Proof.
  assert (Hname : JsError.name Scenario.denied <> "AbortError") by discriminate.
  destruct (picker_errors_propagate
    (Scenario.browser (Rejected Scenario.denied) (Rejected Scenario.denied)
       Pending Pending Pending Pending)
    (Sample.storageWith Sample.tripHandle)
    (Scenario.windowOf (Rejected Scenario.denied) (Rejected Scenario.denied))
    (fun _ => Rejected Scenario.denied) (fun _ => Rejected Scenario.denied)
    Scenario.denied eq_refl eq_refl eq_refl Hname) as [Hopen Hsave].
  split; [exact Hname|]. split.
  - apply Hopen. reflexivity.
  - apply Hsave; reflexivity.
Defined.

(** X2.  Under the native strategy the picked handle becomes the current one
    before the file is read: when [getFile] or the codec then rejects with an
    error not named [AbortError], [openFile] rejects with that error and the
    picked handle is nevertheless held, replacing whatever was held before. *)
Theorem failed_native_open_keeps_picked_handle
  (env : Env) (st : LocalFileStorage) (w : Window)
  (op : OpenFilePickerOptions -> PromiseState (list FileSystemFileHandle.t))
  (h : FileSystemFileHandle.t) (others : list FileSystemFileHandle.t)
  (e : JsError.t) :
  window env = Some w ->
  showOpenFilePicker w = Some op ->
  is_some (showSaveFilePicker w) = true ->
  op openOptions = Fulfilled (h :: others) ->
  JsError.name e <> "AbortError" ->
  (getFile env h = Rejected e \/
   exists file, getFile env h = Fulfilled file /\
                toProto (_jsonFormat st) file = Rejected e) ->
  openFile env st
  = (Rejected e, set_currentFileHandle (Some h) st,
     [ShowOpenFilePicker openOptions; GetFile h]) /\
  completion (hasFileHandle (fields (openFile env st))) = Fulfilled true.
Proof.
  intros Hw Ho Hsave Hp Hname Hfail. apply isAbortError_other in Hname.
  destruct (showSaveFilePicker w) as [sp|] eqn:Hs; [clear Hsave|discriminate].
  assert (Hrun : openFile env st
                 = (Rejected e, set_currentFileHandle (Some h) st,
                    [ShowOpenFilePicker openOptions; GetFile h])).
  { open_native Hw Ho Hs. rewrite Hp. cbn.
    destruct Hfail as [Hg | (file & Hg & Hd)]; rewrite Hg; cbn;
      rewrite ?Hd; cbn; rewrite Hname; reflexivity. }
  rewrite Hrun. split; reflexivity.
Qed.

Lemma failed_native_open_keeps_picked_handle_witness :
  JsError.name Sample.syntaxError <> "AbortError" /\
  openFile Sample.garbled (Sample.storageWith Sample.otherHandle)
  = (Rejected Sample.syntaxError, Sample.storageWith Sample.tripHandle,
     [ShowOpenFilePicker openOptions; GetFile Sample.tripHandle]).
Proof.
  assert (Hname : JsError.name Sample.syntaxError <> "AbortError") by discriminate.
  split; [exact Hname|].
  apply (failed_native_open_keeps_picked_handle Sample.garbled
           (Sample.storageWith Sample.otherHandle) Sample.pickingWindow
           (fun _ => Fulfilled [Sample.tripHandle]) Sample.tripHandle []
           Sample.syntaxError eq_refl eq_refl eq_refl eq_refl Hname).
  right. exists (File.make "trip.json" "oops"). split; reflexivity.
Defined.

(** X3.  A negative result does not mean that nothing changed.  When the
    picker answers with a handle and a later step rejects with an error named
    [AbortError] ([getFile] while opening, [createWritable] while saving),
    the call reports a cancellation, [null] or [false], although the picked
    handle has already become the current one. *)
Theorem abort_after_pick_reports_cancel
  (env : Env) (st : LocalFileStorage) (w : Window)
  (op : OpenFilePickerOptions -> PromiseState (list FileSystemFileHandle.t))
  (sp : SaveFilePickerOptions -> PromiseState (option FileSystemFileHandle.t))
  (h : FileSystemFileHandle.t) (e : JsError.t) :
  window env = Some w ->
  showOpenFilePicker w = Some op ->
  showSaveFilePicker w = Some sp ->
  JsError.name e = "AbortError" ->
  (forall others,
     op openOptions = Fulfilled (h :: others) ->
     getFile env h = Rejected e ->
     openFile env st
     = (Fulfilled None, set_currentFileHandle (Some h) st,
        [ShowOpenFilePicker openOptions; GetFile h])) /\
  (forall checklistFile saveAs,
     asksLocation saveAs st = true ->
     sp (saveOptions checklistFile) = Fulfilled (Some h) ->
     createWritable env h = Rejected e ->
     saveFile env checklistFile saveAs st
     = (Fulfilled false, set_currentFileHandle (Some h) st,
        [ShowSaveFilePicker (saveOptions checklistFile); CreateWritable h])).
Proof.
  intros Hw Ho Hs Hname. apply isAbortError_name in Hname. split.
  - intros others Hp Hg. open_native Hw Ho Hs. rewrite Hp. cbn. rewrite Hg. cbn.
    rewrite Hname. reflexivity.
  - intros checklistFile saveAs Hasks Hp Hc. save_native Hw Ho Hs.
    unfold asksLocation in Hasks. rewrite Hasks. js_unfold.
    rewrite (call_showSaveFilePicker_run _ _ _ _ _ Hw Hs), Hp. cbn.
    rewrite Hc. cbn. rewrite Hname. reflexivity.
Qed.

Lemma abort_after_pick_reports_cancel_witness :
  JsError.name Sample.abortError = "AbortError" /\
  openFile
    (Scenario.browser (Fulfilled [Sample.tripHandle]) (Fulfilled (Some Sample.tripHandle))
       (Rejected Sample.abortError) (Rejected Sample.abortError) Pending Pending)
    (Sample.storageWith Sample.otherHandle)
  = (Fulfilled None, Sample.storageWith Sample.tripHandle,
     [ShowOpenFilePicker openOptions; GetFile Sample.tripHandle]) /\
  saveFile
    (Scenario.browser (Fulfilled [Sample.tripHandle]) (Fulfilled (Some Sample.tripHandle))
       (Rejected Sample.abortError) (Rejected Sample.abortError) Pending Pending)
    Sample.tripDoc true (Sample.storageWith Sample.otherHandle)
  = (Fulfilled false, Sample.storageWith Sample.tripHandle,
     [ShowSaveFilePicker (saveOptions Sample.tripDoc); CreateWritable Sample.tripHandle]).
Proof.
  destruct (abort_after_pick_reports_cancel
    (Scenario.browser (Fulfilled [Sample.tripHandle]) (Fulfilled (Some Sample.tripHandle))
       (Rejected Sample.abortError) (Rejected Sample.abortError) Pending Pending)
    (Sample.storageWith Sample.otherHandle)
    (Scenario.windowOf (Fulfilled [Sample.tripHandle]) (Fulfilled (Some Sample.tripHandle)))
    (fun _ => Fulfilled [Sample.tripHandle]) (fun _ => Fulfilled (Some Sample.tripHandle))
    Sample.tripHandle Sample.abortError eq_refl eq_refl eq_refl eq_refl) as [Hopen Hsave].
  split; [reflexivity|]. split.
  - apply (Hopen []); reflexivity.
  - apply Hsave; reflexivity.
Defined.

(** X4.  When the save picker resolves without a handle, a [saveFile] that
    asked for a location rejects with the error [No file handle available]
    and, the answer having been stored first, no handle is held afterwards;
    nothing is written. *)
Theorem save_without_handle_is_an_error
  (env : Env) (st : LocalFileStorage) (w : Window)
  (op : OpenFilePickerOptions -> PromiseState (list FileSystemFileHandle.t))
  (sp : SaveFilePickerOptions -> PromiseState (option FileSystemFileHandle.t))
  (checklistFile : ChecklistFile) (saveAs : bool) :
  window env = Some w ->
  showOpenFilePicker w = Some op ->
  showSaveFilePicker w = Some sp ->
  asksLocation saveAs st = true ->
  sp (saveOptions checklistFile) = Fulfilled None ->
  saveFile env checklistFile saveAs st
  = (Rejected (Error "No file handle available"), set_currentFileHandle None st,
     [ShowSaveFilePicker (saveOptions checklistFile)]) /\
  completion (hasFileHandle (fields (saveFile env checklistFile saveAs st)))
  = Fulfilled false.
Proof.
  intros Hw Ho Hs Hasks Hp.
  assert (Hrun : saveFile env checklistFile saveAs st
                 = (Rejected (Error "No file handle available"),
                    set_currentFileHandle None st,
                    [ShowSaveFilePicker (saveOptions checklistFile)])).
  { save_native Hw Ho Hs. unfold asksLocation in Hasks. rewrite Hasks. js_unfold.
    rewrite (call_showSaveFilePicker_run _ _ _ _ _ Hw Hs), Hp. reflexivity. }
  rewrite Hrun. split; reflexivity.
Qed.

Lemma save_without_handle_is_an_error_witness :
  asksLocation true (Sample.storageWith Sample.tripHandle) = true /\
  saveFile
    (Scenario.browser Pending (Fulfilled None) Pending Pending Pending Pending)
    Sample.tripDoc true (Sample.storageWith Sample.tripHandle)
  = (Rejected (Error "No file handle available"), Sample.storage,
     [ShowSaveFilePicker (saveOptions Sample.tripDoc)]).
Proof.
  split; [reflexivity|].
  apply (save_without_handle_is_an_error
           (Scenario.browser Pending (Fulfilled None) Pending Pending Pending Pending)
           (Sample.storageWith Sample.tripHandle)
           (Scenario.windowOf Pending (Fulfilled None))
           (fun _ => Pending) (fun _ => Fulfilled None)
           Sample.tripDoc true eq_refl eq_refl eq_refl eq_refl eq_refl).
Defined.

(** X5.  When the open picker resolves with an empty array, the destructured
    handle is [undefined]: it is stored, so no handle is held afterwards, and
    [openFile] rejects with a [TypeError] without reading any file. *)
Theorem open_without_handle_is_an_error
  (env : Env) (st : LocalFileStorage) (w : Window)
  (op : OpenFilePickerOptions -> PromiseState (list FileSystemFileHandle.t))
  (sp : SaveFilePickerOptions -> PromiseState (option FileSystemFileHandle.t)) :
  window env = Some w ->
  showOpenFilePicker w = Some op ->
  showSaveFilePicker w = Some sp ->
  op openOptions = Fulfilled [] ->
  (exists e, completion (openFile env st) = Rejected e /\ JsError.name e = "TypeError") /\
  _currentFileHandle (fields (openFile env st)) = None /\
  calls (openFile env st) = [ShowOpenFilePicker openOptions].
Proof.
  intros Hw Ho Hs Hp. open_native Hw Ho Hs. rewrite Hp. cbn.
  split; [eexists; split; reflexivity|]. split; reflexivity.
Qed.

Lemma open_without_handle_is_an_error_witness :
  (exists e,
     completion
       (openFile (Scenario.browser (Fulfilled []) Pending Pending Pending Pending Pending)
          (Sample.storageWith Sample.tripHandle)) = Rejected e /\
     JsError.name e = "TypeError") /\
  _currentFileHandle
    (fields
       (openFile (Scenario.browser (Fulfilled []) Pending Pending Pending Pending Pending)
          (Sample.storageWith Sample.tripHandle))) = None.
Proof.
  destruct (open_without_handle_is_an_error
    (Scenario.browser (Fulfilled []) Pending Pending Pending Pending Pending)
    (Sample.storageWith Sample.tripHandle)
    (Scenario.windowOf (Fulfilled []) Pending)
    (fun _ => Fulfilled []) (fun _ => Pending)
    eq_refl eq_refl eq_refl eq_refl) as (Hrej & Hnone & _).
  split; [exact Hrej | exact Hnone].
Defined.

(** X6.  A [saveFile] that asks for a location, because of [saveAs] or for
    want of a handle, writes to the handle the picker answers with and to no
    other: the run is the picker, [createWritable], one [write] of the bytes
    of the codec's blob and [close], all on the new handle; the result is
    [true] and the new handle is the current one. *)
Theorem save_as_writes_to_chosen_handle
  (env : Env) (st : LocalFileStorage) (w : Window)
  (op : OpenFilePickerOptions -> PromiseState (list FileSystemFileHandle.t))
  (sp : SaveFilePickerOptions -> PromiseState (option FileSystemFileHandle.t))
  (checklistFile : ChecklistFile) (saveAs : bool)
  (h : FileSystemFileHandle.t) (blob : File.t) :
  window env = Some w ->
  showOpenFilePicker w = Some op ->
  showSaveFilePicker w = Some sp ->
  asksLocation saveAs st = true ->
  sp (saveOptions checklistFile) = Fulfilled (Some h) ->
  createWritable env h = Fulfilled tt ->
  fromProto (_jsonFormat st) checklistFile = Fulfilled blob ->
  write env h (File.contents blob) = Fulfilled tt ->
  close env h = Fulfilled tt ->
  saveFile env checklistFile saveAs st
  = (Fulfilled true, set_currentFileHandle (Some h) st,
     [ShowSaveFilePicker (saveOptions checklistFile);
      CreateWritable h;
      WritableWrite h (File.contents blob);
      WritableClose h]).
Proof.
  intros Hw Ho Hs Hasks Hp Hc Hf Hwr Hcl. save_native Hw Ho Hs.
  unfold asksLocation in Hasks. rewrite Hasks. js_unfold.
  rewrite (call_showSaveFilePicker_run _ _ _ _ _ Hw Hs), Hp. cbn.
  rewrite Hc, Hf, Hwr, Hcl. reflexivity.
Qed.

Lemma save_as_writes_to_chosen_handle_witness :
  asksLocation true (Sample.storageWith Sample.tripHandle) = true /\
  saveFile Sample.picking Sample.tripDoc true (Sample.storageWith Sample.tripHandle)
  = (Fulfilled true, Sample.storageWith Sample.otherHandle,
     [ShowSaveFilePicker (saveOptions Sample.tripDoc);
      CreateWritable Sample.otherHandle;
      WritableWrite Sample.otherHandle "{}";
      WritableClose Sample.otherHandle]).
Proof.
  split; [reflexivity|].
  apply (save_as_writes_to_chosen_handle Sample.picking
           (Sample.storageWith Sample.tripHandle) Sample.pickingWindow
           (fun _ => Fulfilled [Sample.tripHandle])
           (fun _ => Fulfilled (Some Sample.otherHandle))
           Sample.tripDoc true Sample.otherHandle (File.make "trip.json" "{}")
           eq_refl eq_refl eq_refl eq_refl eq_refl eq_refl eq_refl eq_refl eq_refl).
Defined.

(** X7.  Under the native strategy an encoding failure is not downgraded as
    in the fallback: when the codec rejects with an error not named
    [AbortError], [saveFile] rejects with that error.  By then the writable
    stream has been opened; nothing is written to it and it is never closed. *)
Theorem native_encode_failure_propagates
  (env : Env) (st : LocalFileStorage) (w : Window)
  (op : OpenFilePickerOptions -> PromiseState (list FileSystemFileHandle.t))
  (sp : SaveFilePickerOptions -> PromiseState (option FileSystemFileHandle.t))
  (checklistFile : ChecklistFile) (h : FileSystemFileHandle.t) (e : JsError.t) :
  window env = Some w ->
  showOpenFilePicker w = Some op ->
  showSaveFilePicker w = Some sp ->
  _currentFileHandle st = Some h ->
  createWritable env h = Fulfilled tt ->
  fromProto (_jsonFormat st) checklistFile = Rejected e ->
  JsError.name e <> "AbortError" ->
  saveFile env checklistFile false st = (Rejected e, st, [CreateWritable h]) /\
  closes (calls (saveFile env checklistFile false st)) = false.
Proof.
  intros Hw Ho Hs Hh Hc Hf Hname. apply isAbortError_other in Hname.
  assert (Hrun : saveFile env checklistFile false st = (Rejected e, st, [CreateWritable h])).
  { save_native Hw Ho Hs. rewrite Hh. cbn. rewrite Hc, Hf. cbn. rewrite Hname.
    reflexivity. }
  rewrite Hrun. split; reflexivity.
Qed.

Lemma native_encode_failure_propagates_witness :
  JsError.name (Error "missing metadata") <> "AbortError" /\
  saveFile Sample.picking Scenario.untitled false (Sample.storageWith Sample.tripHandle)
  = (Rejected (Error "missing metadata"), Sample.storageWith Sample.tripHandle,
     [CreateWritable Sample.tripHandle]).
Proof.
  assert (Hname : JsError.name (Error "missing metadata") <> "AbortError")
    by discriminate.
  split; [exact Hname|].
  apply (native_encode_failure_propagates Sample.picking
           (Sample.storageWith Sample.tripHandle) Sample.pickingWindow
           (fun _ => Fulfilled [Sample.tripHandle])
           (fun _ => Fulfilled (Some Sample.otherHandle))
           Scenario.untitled Sample.tripHandle (Error "missing metadata")
           eq_refl eq_refl eq_refl eq_refl eq_refl eq_refl Hname).
Defined.

(** X8.  After a [saveFile] whose picker answered with a handle, whether or
    not the write that followed went through, a [saveFile(doc, false)] under
    the native strategy reuses that handle: it shows no picker and starts
    with [createWritable] on it. *)
Theorem save_then_save_reuses_handle
  (env : Env) (st : LocalFileStorage) (w : Window)
  (op : OpenFilePickerOptions -> PromiseState (list FileSystemFileHandle.t))
  (sp : SaveFilePickerOptions -> PromiseState (option FileSystemFileHandle.t))
  (checklistFile : ChecklistFile) (saveAs : bool) (h : FileSystemFileHandle.t) :
  window env = Some w ->
  showOpenFilePicker w = Some op ->
  showSaveFilePicker w = Some sp ->
  asksLocation saveAs st = true ->
  sp (saveOptions checklistFile) = Fulfilled (Some h) ->
  _currentFileHandle (fields (saveFile env checklistFile saveAs st)) = Some h /\
  forall env' next,
    nativeStrategy env' (fields (saveFile env checklistFile saveAs st)) = true ->
    promptsSave
      (calls (saveFile env' next false (fields (saveFile env checklistFile saveAs st))))
    = false /\
    exists rest,
      calls (saveFile env' next false (fields (saveFile env checklistFile saveAs st)))
      = CreateWritable h :: rest.
Proof.
  intros Hw Ho Hs Hasks Hp.
  assert (Hfields : fields (saveFile env checklistFile saveAs st)
                    = set_currentFileHandle (Some h) st).
  { rewrite saveFile_strategy, (native_selected _ _ _ _ Hw Ho Hs).
    rewrite (_saveFileWithFSA_fields env w sp Hw Hs), Hasks, Hp. reflexivity. }
  rewrite Hfields. split; [reflexivity|].
  intros env' next Hnative'. rewrite saveFile_strategy, Hnative'.
  apply (_saveFileWithFSA_reuses env' next (set_currentFileHandle (Some h) st) h).
  reflexivity.
Qed.

Lemma save_then_save_reuses_handle_witness :
  asksLocation false Sample.storage = true /\
  _currentFileHandle (fields (saveFile Sample.picking Sample.tripDoc false Sample.storage))
  = Some Sample.otherHandle /\
  promptsSave
    (calls (saveFile Sample.cancelling Sample.tripDoc false
              (fields (saveFile Sample.picking Sample.tripDoc false Sample.storage))))
  = false.
Proof.
  destruct (save_then_save_reuses_handle Sample.picking Sample.storage
    Sample.pickingWindow
    (fun _ => Fulfilled [Sample.tripHandle])
    (fun _ => Fulfilled (Some Sample.otherHandle))
    Sample.tripDoc false Sample.otherHandle
    eq_refl eq_refl eq_refl eq_refl eq_refl) as [Hheld Hnext].
  split; [reflexivity|]. split; [exact Hheld|].
  apply (Hnext Sample.cancelling Sample.tripDoc). reflexivity.
Defined.

(* ===================================================================== *)
(** * What the public methods never do *)
(* ===================================================================== *)


Lemma _openFileWithFallback_rejection env st e :
  completion (_openFileWithFallback env st) = Rejected e ->
  document env = None /\ e = ReferenceError "document is not defined".
Proof.
  unfold _openFileWithFallback. with_document env.
  - destruct (inputAnswer d) as [files| |]; cbn; try discriminate.
    destruct (first_file files) as [file|]; cbn; try discriminate.
    js_unfold. all_answers; discriminate.
  - intros H. injection H as <-. split; reflexivity.
Qed.



(** X10.  In every environment and from every state, [openFile] never opens,
    writes or closes a writable stream and never shows the save picker, and
    [saveFile] never reads a handle's file and never shows the open picker. *)
Theorem open_never_writes_save_never_reads
  (env : Env) (st : LocalFileStorage) :
  (writes (calls (openFile env st)) = false /\
   promptsSave (calls (openFile env st)) = false) /\
  (forall checklistFile saveAs,
     reads (calls (saveFile env checklistFile saveAs st)) = false /\
     promptsOpen (calls (saveFile env checklistFile saveAs st)) = false).
Proof.
  split.
  - rewrite openFile_strategy. destruct (nativeStrategy env st) eqn:Hnative.
    + apply nativeStrategy_true in Hnative as (w & op & sp & Hw & Ho & Hs).
      unfold _openFileWithFSA. js_unfold.
      rewrite (call_showOpenFilePicker_run _ _ _ _ Hw Ho).
      destruct (op openOptions) as [[|h hs]|e|]; cbn; all_answers; split; reflexivity.
    + unfold _openFileWithFallback. with_document env; try (split; reflexivity).
      destruct (inputAnswer d) as [files| |]; cbn; try (split; reflexivity).
      destruct (first_file files) as [file|]; cbn; try (split; reflexivity).
      js_unfold. all_answers; split; reflexivity.
  - intros checklistFile saveAs. rewrite saveFile_strategy.
    destruct (nativeStrategy env st) eqn:Hnative.
    + apply nativeStrategy_true in Hnative as (w & op & sp & Hw & Ho & Hs).
      unfold _saveFileWithFSA. js_unfold.
      destruct (saveAs || negb (is_some (_currentFileHandle st))).
      * js_unfold. rewrite (call_showSaveFilePicker_run _ _ _ _ _ Hw Hs).
        destruct (sp (saveOptions checklistFile)) as [[h|]|e|]; cbn;
          all_answers; split; reflexivity.
      * js_unfold. destruct (_currentFileHandle st) as [h|]; cbn;
          all_answers; split; reflexivity.
    + unfold _saveFileWithFallback. with_document env;
        all_answers; split; reflexivity.
Qed.

(* ===================================================================== *)
(** * What a positive result guarantees *)
(* ===================================================================== *)

(** X11.  When [saveFile] is fulfilled with [true], the codec did encode the
    document.  Under the native strategy a handle is then held, and the run
    ended with [createWritable], one [write] of exactly the blob's bytes and
    [close], all on that handle, preceded by at most the save picker; under
    the fallback strategy the anchor carrying the blob under its name was
    clicked. *)
Theorem saved_means_written
  (env : Env) (st : LocalFileStorage) (checklistFile : ChecklistFile) (saveAs : bool) :
  completion (saveFile env checklistFile saveAs st) = Fulfilled true ->
  exists blob,
    fromProto (_jsonFormat st) checklistFile = Fulfilled blob /\
    ((nativeStrategy env st = true /\
      exists h,
        _currentFileHandle (fields (saveFile env checklistFile saveAs st)) = Some h /\
        (calls (saveFile env checklistFile saveAs st)
         = [CreateWritable h; WritableWrite h (File.contents blob); WritableClose h] \/
         calls (saveFile env checklistFile saveAs st)
         = [ShowSaveFilePicker (saveOptions checklistFile);
            CreateWritable h; WritableWrite h (File.contents blob); WritableClose h])) \/
     (nativeStrategy env st = false /\
      In (Click (HTMLAnchorElement (BlobURL blob) (File.name blob)))
         (calls (saveFile env checklistFile saveAs st)))).
Proof.
  rewrite saveFile_strategy. destruct (nativeStrategy env st) eqn:Hnative.
  - apply nativeStrategy_true in Hnative as (w & op & sp & Hw & Ho & Hs).
    unfold _saveFileWithFSA. js_unfold.
    destruct (saveAs || negb (is_some (_currentFileHandle st))).
    + js_unfold. rewrite (call_showSaveFilePicker_run _ _ _ _ _ Hw Hs).
      destruct (sp (saveOptions checklistFile)) as [[h|]|e|]; cbn;
        all_answers; try discriminate.
      intros _. eexists. split; [reflexivity|]. left. split; [reflexivity|].
      exists h. split; [reflexivity|]. right. reflexivity.
    + js_unfold. destruct (_currentFileHandle st) as [h|] eqn:Hh; cbn;
        all_answers; try discriminate.
      intros _. eexists. split; [reflexivity|]. left. split; [reflexivity|].
      exists h. split; [exact Hh|]. left. reflexivity.
  - unfold _saveFileWithFallback. with_document env;
      all_answers; try discriminate.
    intros _. eexists. split; [reflexivity|]. right. split; [reflexivity|].
    cbn. auto.
Qed.

Lemma saved_means_written_witness :
  completion (saveFile Sample.picking Sample.tripDoc true
                (Sample.storageWith Sample.tripHandle)) = Fulfilled true /\
  exists blob,
    fromProto (_jsonFormat (Sample.storageWith Sample.tripHandle)) Sample.tripDoc
    = Fulfilled blob.
Proof.
  split; [reflexivity|].
  destruct (saved_means_written Sample.picking (Sample.storageWith Sample.tripHandle)
              Sample.tripDoc true eq_refl) as (blob & Hblob & _).
  exists blob. exact Hblob.
Defined.

(** X12.  When [openFile] is fulfilled with a document, that document is what
    the codec decoded.  Under the native strategy it was decoded from the
    file of the first handle the picker returned, that handle is the current
    one, and the run is the picker followed by one [getFile] on it; under the
    fallback strategy it was decoded from the first file of the input
    element and the fields are unchanged. *)
Theorem opened_means_decoded
  (env : Env) (st : LocalFileStorage) (doc : ChecklistFile) :
  completion (openFile env st) = Fulfilled (Some doc) ->
  (nativeStrategy env st = true /\
   exists h file,
     PickedNatively st h (CallOpenFile env) /\
     _currentFileHandle (fields (openFile env st)) = Some h /\
     getFile env h = Fulfilled file /\
     toProto (_jsonFormat st) file = Fulfilled doc /\
     calls (openFile env st) = [ShowOpenFilePicker openOptions; GetFile h]) \/
  (nativeStrategy env st = false /\
   exists files file,
     fileInput env = InputChange files /\
     first_file files = Some file /\
     toProto (_jsonFormat st) file = Fulfilled doc /\
     fields (openFile env st) = st).
Proof.
  rewrite openFile_strategy. destruct (nativeStrategy env st) eqn:Hnative.
  - pose proof Hnative as Hglobals.
    apply nativeStrategy_true in Hglobals as (w & op & sp & Hw & Ho & Hs).
    pose proof (call_showOpenFilePicker_run env st w op Hw Ho) as Hcall.
    unfold _openFileWithFSA. js_unfold. rewrite Hcall.
    destruct (op openOptions) as [[|h hs]|e|] eqn:Hp; cbn;
      all_answers; try discriminate.
    intros H. injection H as <-. left. split; [reflexivity|].
    exists h. eexists. repeat split; try reflexivity; try eassumption.
    apply (picked_by_open st h env hs Hnative). rewrite Hcall. reflexivity.
  - unfold _openFileWithFallback. with_document env; try discriminate.
    destruct (inputAnswer d) as [files| |] eqn:Hinput; cbn; try discriminate.
    destruct (first_file files) as [file|] eqn:Hfirst; cbn; try discriminate.
    js_unfold. all_answers; try discriminate.
    intros H. injection H as <-. right. split; [reflexivity|].
    exists files, file. repeat split; auto.
Qed.

Lemma opened_means_decoded_witness :
  completion (openFile Sample.picking Sample.storage)
  = Fulfilled (Some (mkChecklistFile (Some (ChecklistFileMetadata.make "trip.json")) [])) /\
  (nativeStrategy Sample.picking Sample.storage = true \/
   nativeStrategy Sample.picking Sample.storage = false).
Proof.
  split; [reflexivity|].
  destruct (opened_means_decoded Sample.picking Sample.storage _ eq_refl)
    as [[Hnative _] | [Hfallback _]]; [left | right]; assumption.
Defined.

(** X13.  A [saveFile] that asked for a location switches the current handle
    to the chosen one even when the save then fails: whichever of
    [createWritable], the codec, [write] or [close] rejects with an error not
    named [AbortError], the call rejects with that error and the chosen
    handle is held. *)
Theorem failed_save_as_keeps_chosen_handle
  (env : Env) (st : LocalFileStorage) (w : Window)
  (op : OpenFilePickerOptions -> PromiseState (list FileSystemFileHandle.t))
  (sp : SaveFilePickerOptions -> PromiseState (option FileSystemFileHandle.t))
  (checklistFile : ChecklistFile) (saveAs : bool)
  (h : FileSystemFileHandle.t) (e : JsError.t) :
  window env = Some w ->
  showOpenFilePicker w = Some op ->
  showSaveFilePicker w = Some sp ->
  asksLocation saveAs st = true ->
  sp (saveOptions checklistFile) = Fulfilled (Some h) ->
  JsError.name e <> "AbortError" ->
  (createWritable env h = Rejected e \/
   (createWritable env h = Fulfilled tt /\
    (fromProto (_jsonFormat st) checklistFile = Rejected e \/
     exists blob,
       fromProto (_jsonFormat st) checklistFile = Fulfilled blob /\
       (write env h (File.contents blob) = Rejected e \/
        (write env h (File.contents blob) = Fulfilled tt /\
         close env h = Rejected e))))) ->
  completion (saveFile env checklistFile saveAs st) = Rejected e /\
  _currentFileHandle (fields (saveFile env checklistFile saveAs st)) = Some h.
Proof.
  intros Hw Ho Hs Hasks Hp Hname Hfail. apply isAbortError_other in Hname.
  save_native Hw Ho Hs. unfold asksLocation in Hasks. rewrite Hasks. js_unfold.
  rewrite (call_showSaveFilePicker_run _ _ _ _ _ Hw Hs), Hp. cbn.
  destruct Hfail as [Hc | (Hc & [Hf | (blob & Hf & [Hwr | (Hwr & Hcl)])])];
    rewrite Hc; cbn; rewrite ?Hf; cbn; rewrite ?Hwr; cbn; rewrite ?Hcl; cbn;
    rewrite Hname; split; reflexivity.
Qed.

Lemma failed_save_as_keeps_chosen_handle_witness :
  JsError.name Scenario.diskFull <> "AbortError" /\
  completion
    (saveFile
       (Scenario.browser Pending (Fulfilled (Some Sample.otherHandle)) Pending
          (Fulfilled tt) (Rejected Scenario.diskFull) Pending)
       Sample.tripDoc true (Sample.storageWith Sample.tripHandle))
  = Rejected Scenario.diskFull /\
  _currentFileHandle
    (fields
       (saveFile
          (Scenario.browser Pending (Fulfilled (Some Sample.otherHandle)) Pending
             (Fulfilled tt) (Rejected Scenario.diskFull) Pending)
          Sample.tripDoc true (Sample.storageWith Sample.tripHandle)))
  = Some Sample.otherHandle.
Proof.
  assert (Hname : JsError.name Scenario.diskFull <> "AbortError") by discriminate.
  split; [exact Hname|].
  apply (failed_save_as_keeps_chosen_handle
           (Scenario.browser Pending (Fulfilled (Some Sample.otherHandle)) Pending
              (Fulfilled tt) (Rejected Scenario.diskFull) Pending)
           (Sample.storageWith Sample.tripHandle)
           (Scenario.windowOf Pending (Fulfilled (Some Sample.otherHandle)))
           (fun _ => Pending) (fun _ => Fulfilled (Some Sample.otherHandle))
           Sample.tripDoc true Sample.otherHandle Scenario.diskFull
           eq_refl eq_refl eq_refl eq_refl eq_refl Hname).
  right. split; [reflexivity|]. right.
  exists (File.make "trip.json" "{}"). split; [reflexivity|]. left. reflexivity.
Defined.

(** X14.  The save picker is offered the document's name followed by
    [.json]; a document without metadata, or whose name is the empty string,
    is offered as [checklist.json].  The picker is restricted to the
    checklist file types either way. *)
Theorem save_picker_suggests_name
  (env : Env) (st : LocalFileStorage) (w : Window)
  (op : OpenFilePickerOptions -> PromiseState (list FileSystemFileHandle.t))
  (sp : SaveFilePickerOptions -> PromiseState (option FileSystemFileHandle.t))
  (checklistFile : ChecklistFile) (saveAs : bool) :
  window env = Some w ->
  showOpenFilePicker w = Some op ->
  showSaveFilePicker w = Some sp ->
  asksLocation saveAs st = true ->
  (metadata checklistFile = None \/
   metadata checklistFile = Some (ChecklistFileMetadata.make "") ->
   exists rest,
     calls (saveFile env checklistFile saveAs st)
     = ShowSaveFilePicker (mkSaveOptions "checklist.json" checklistTypes) :: rest) /\
  (forall name,
     metadata checklistFile = Some (ChecklistFileMetadata.make name) ->
     name <> "" ->
     exists rest,
       calls (saveFile env checklistFile saveAs st)
       = ShowSaveFilePicker (mkSaveOptions (name ++ ".json") checklistTypes) :: rest).
Proof.
  intros Hw Ho Hs Hasks.
  rewrite saveFile_strategy, (native_selected _ _ _ _ Hw Ho Hs).
  destruct (_saveFileWithFSA_prompts env w sp Hw Hs checklistFile saveAs st Hasks)
    as [rest ->].
  unfold saveOptions, suggestedNameOf. split.
  - intros [-> | ->]; exists rest; reflexivity.
  - intros name -> Hne. exists rest. cbn.
    apply truthy_string_nonempty in Hne. rewrite Hne. reflexivity.
Qed.

Lemma save_picker_suggests_name_witness :
  (exists rest,
     calls (saveFile Sample.picking Scenario.unnamed true Sample.storage)
     = ShowSaveFilePicker (mkSaveOptions "checklist.json" checklistTypes) :: rest) /\
  (exists rest,
     calls (saveFile Sample.picking Sample.tripDoc true Sample.storage)
     = ShowSaveFilePicker (mkSaveOptions "trip.json" checklistTypes) :: rest).
Proof.
  split.
  - apply (proj1 (save_picker_suggests_name Sample.picking Sample.storage
             Sample.pickingWindow
             (fun _ => Fulfilled [Sample.tripHandle])
             (fun _ => Fulfilled (Some Sample.otherHandle))
             Scenario.unnamed true eq_refl eq_refl eq_refl eq_refl)).
    right. reflexivity.
  - apply (proj2 (save_picker_suggests_name Sample.picking Sample.storage
             Sample.pickingWindow
             (fun _ => Fulfilled [Sample.tripHandle])
             (fun _ => Fulfilled (Some Sample.otherHandle))
             Sample.tripDoc true eq_refl eq_refl eq_refl eq_refl) "trip").
    + reflexivity.
    + discriminate.
Defined.

(* ===================================================================== *)
(** * Handle management *)
(* ===================================================================== *)

(** X15.  [getCurrentFileName()] only reads: it calls nothing and leaves the
    fields alone, and it yields a name exactly when [hasFileHandle()] says
    [true].  After an [openFile] whose picker returned a handle it yields
    that handle's name, already before the file has been read and whatever
    was held before; after [clearFileHandle()] it yields [undefined]. *)
Theorem current_file_name_follows_handle
  (env : Env) (st : LocalFileStorage) (w : Window)
  (op : OpenFilePickerOptions -> PromiseState (list FileSystemFileHandle.t))
  (sp : SaveFilePickerOptions -> PromiseState (option FileSystemFileHandle.t))
  (h : FileSystemFileHandle.t) (others : list FileSystemFileHandle.t) :
  window env = Some w ->
  showOpenFilePicker w = Some op ->
  showSaveFilePicker w = Some sp ->
  op openOptions = Fulfilled (h :: others) ->
  completion (getCurrentFileName (fields (openFile env st)))
  = Fulfilled (Some (FileSystemFileHandle.name h)) /\
  completion (getCurrentFileName (fields (clearFileHandle (fields (openFile env st)))))
  = Fulfilled None /\
  (forall st',
     fields (getCurrentFileName st') = st' /\
     calls (getCurrentFileName st') = [] /\
     exists name,
       completion (getCurrentFileName st') = Fulfilled name /\
       completion (hasFileHandle st') = Fulfilled (is_some name)).
Proof.
  intros Hw Ho Hs Hp.
  assert (Hfields : fields (openFile env st) = set_currentFileHandle (Some h) st).
  { rewrite openFile_strategy, (native_selected _ _ _ _ Hw Ho Hs).
    rewrite (_openFileWithFSA_fields env w op Hw Ho), Hp. reflexivity. }
  rewrite Hfields. split; [reflexivity|]. split; [reflexivity|].
  intros st'. split; [apply getCurrentFileName_fields|].
  unfold getCurrentFileName, hasFileHandle. js_unfold.
  destruct (_currentFileHandle st') as [h'|]; cbn.
  - split; [reflexivity|]. eexists. split; reflexivity.
  - split; [reflexivity|]. eexists. split; reflexivity.
Qed.

Lemma current_file_name_follows_handle_witness :
  completion
    (getCurrentFileName (fields (openFile Sample.garbled
                                   (Sample.storageWith Sample.otherHandle))))
  = Fulfilled (Some "trip.json").
Proof.
  apply (current_file_name_follows_handle Sample.garbled
           (Sample.storageWith Sample.otherHandle) Sample.pickingWindow
           (fun _ => Fulfilled [Sample.tripHandle])
           (fun _ => Fulfilled (Some Sample.otherHandle))
           Sample.tripHandle [] eq_refl eq_refl eq_refl eq_refl).
Defined.

Lemma nativeStrategy_any env st st' : nativeStrategy env st = nativeStrategy env st'.
Proof.
  unfold nativeStrategy, isFileSystemAccessSupported.
  destruct (window env); reflexivity.
Qed.

Lemma fallback_step_keeps_none st0 c st :
  runsFallback st0 c = true ->
  _currentFileHandle st = None ->
  _currentFileHandle (step c st) = None.
Proof.
  unfold runsFallback.
  destruct c as [env|env|env checklistFile saveAs| | |]; cbn [envOf step];
    intros Hfb Hnone.
  - rewrite isFileSystemAccessSupported_run. exact Hnone.
  - apply negb_true_iff in Hfb. rewrite (nativeStrategy_any env st0 st) in Hfb.
    rewrite openFile_strategy, Hfb, _openFileWithFallback_fields. exact Hnone.
  - apply negb_true_iff in Hfb. rewrite (nativeStrategy_any env st0 st) in Hfb.
    rewrite saveFile_strategy, Hfb, _saveFileWithFallback_fields. exact Hnone.
  - reflexivity.
  - exact Hnone.
  - rewrite getCurrentFileName_fields. exact Hnone.
Qed.

(** X16.  On a service that is only ever used where capability detection
    answers [false], no handle is ever held: after every sequence of calls
    on a fresh instance [hasFileHandle()] is [false] and
    [getCurrentFileName()] is [undefined]. *)
Theorem no_handle_without_pickers (jsonFormat : Format) (cs : list Call) :
  forallb (runsFallback (new_LocalFileStorage jsonFormat)) cs = true ->
  completion (hasFileHandle (final cs (new_LocalFileStorage jsonFormat)))
  = Fulfilled false /\
  completion (getCurrentFileName (final cs (new_LocalFileStorage jsonFormat)))
  = Fulfilled None.
Proof.
  intros Hall.
  assert (Hnone : _currentFileHandle (final cs (new_LocalFileStorage jsonFormat)) = None).
  { assert (Hgen : forall st,
              _currentFileHandle st = None -> _currentFileHandle (final cs st) = None).
    { induction cs as [|c cs IH]; intros st Hst; [exact Hst|].
      cbn in Hall. apply andb_true_iff in Hall as [Hc Hcs].
      cbn. apply (IH Hcs).
      apply (fallback_step_keeps_none (new_LocalFileStorage jsonFormat)); assumption. }
    apply Hgen. reflexivity. }
  unfold hasFileHandle, getCurrentFileName. js_unfold. rewrite Hnone.
  split; reflexivity.
Qed.

Lemma no_handle_without_pickers_witness :
  completion
    (hasFileHandle
       (final
          [CallOpenFile (Sample.legacy (InputChange (Some [Scenario.checklistJson])));
           CallSaveFile (Sample.legacy InputNoEvent) Sample.tripDoc true;
           CallSaveFile Sample.server Sample.tripDoc false;
           CallGetCurrentFileName]
          (new_LocalFileStorage Sample.jsonFormat)))
  = Fulfilled false.
Proof.
  apply (proj1 (no_handle_without_pickers Sample.jsonFormat
    [CallOpenFile (Sample.legacy (InputChange (Some [Scenario.checklistJson])));
     CallSaveFile (Sample.legacy InputNoEvent) Sample.tripDoc true;
     CallSaveFile Sample.server Sample.tripDoc false;
     CallGetCurrentFileName] eq_refl)).
Defined.

(* ===================================================================== *)
(** * Further properties of the fallback strategy *)
(* ===================================================================== *)

(** X17.  When capability detection answers [false], [openFile] shows no
    picker and leaves the fields alone.  Where no [document] is defined it
    rejects with the reference error before anything is created; where one
    exists it never rejects.  It is fulfilled with [null] when the user
    cancels the input element or the change event carries no file, and with
    the decoded document when the first selected file decodes; only that
    first file is looked at. *)
Theorem fallback_open_outcomes (env : Env) (st : LocalFileStorage) :
  nativeStrategy env st = false ->
  fields (openFile env st) = st /\
  promptsOpen (calls (openFile env st)) = false /\
  (document env = None ->
   openFile env st = (Rejected (ReferenceError "document is not defined"), st, [])) /\
  (forall d e, document env = Some d -> completion (openFile env st) <> Rejected e) /\
  (fileInput env = InputCancel -> completion (openFile env st) = Fulfilled None) /\
  (fileInput env = InputChange None \/ fileInput env = InputChange (Some []) ->
   completion (openFile env st) = Fulfilled None) /\
  (forall file others doc,
     fileInput env = InputChange (Some (file :: others)) ->
     toProto (_jsonFormat st) file = Fulfilled doc ->
     openFile env st
     = (Fulfilled (Some doc), st,
        [CreateElement "input"; Click (HTMLInputElement "file" ".json")])).
Proof.
  intros Hfallback. rewrite openFile_strategy, Hfallback.
  split; [apply _openFileWithFallback_fields|].
  split; [apply _openFileWithFallback_silent|].
  split; [|split].
  - intros Hnone. unfold _openFileWithFallback, call_createElement.
    rewrite Hnone. reflexivity.
  - intros d e Hd H. apply _openFileWithFallback_rejection in H as [Hnone _].
    congruence.
  - unfold _openFileWithFallback, call_createElement, fileInput.
    destruct (document env) as [d|]; js_unfold; repeat split.
    + intros ->. reflexivity.
    + intros [-> | ->]; reflexivity.
    + intros file others doc -> Hdoc. cbn. js_unfold. rewrite Hdoc. reflexivity.
    + discriminate.
    + intros [H | H]; discriminate.
    + discriminate.
Qed.

Lemma fallback_open_outcomes_witness :
  nativeStrategy (Sample.legacy (InputChange (Some [Scenario.checklistJson; Scenario.notes])))
    Sample.storage = false /\
  openFile (Sample.legacy (InputChange (Some [Scenario.checklistJson; Scenario.notes])))
    Sample.storage
  = (Fulfilled (Some (mkChecklistFile (Some (ChecklistFileMetadata.make "trip.json")) [])),
     Sample.storage,
     [CreateElement "input"; Click (HTMLInputElement "file" ".json")]).
Proof.
  split; [reflexivity|].
  destruct (fallback_open_outcomes
    (Sample.legacy (InputChange (Some [Scenario.checklistJson; Scenario.notes])))
    Sample.storage eq_refl) as (_ & _ & _ & _ & _ & _ & Hdoc).
  apply (Hdoc Scenario.checklistJson [Scenario.notes]); reflexivity.
Defined.

(* ===================================================================== *)
(** * Further properties of the command bar *)
(* ===================================================================== *)

(** X18.  The two handlers of the command bar never touch the component's
    fields and emit at most one value.  When the dialog rejects, the handler
    rejects with the same error after opening the dialog and emits nothing;
    when the confirmation resolves to [false], [onDeleteFile] completes
    without emitting. *)
Theorem handlers_leave_component_alone
  (dialog : CommandBar.Dialogs) (st : CommandBar.ChecklistCommandBarComponent) :
  fields (CommandBar.onNewFile dialog st) = st /\
  fields (CommandBar.onDeleteFile dialog st) = st /\
  length (CommandBar.emitted (calls (CommandBar.onNewFile dialog st))) <= 1 /\
  length (CommandBar.emitted (calls (CommandBar.onDeleteFile dialog st))) <= 1 /\
  (forall e,
     CommandBar.promptForTitle dialog CommandBar.titleData = Rejected e ->
     CommandBar.onNewFile dialog st
     = (Rejected e, st, [CommandBar.OpenTitleDialog CommandBar.titleData])) /\
  (forall e,
     CommandBar.confirmDeletion dialog CommandBar.deleteData = Rejected e ->
     CommandBar.onDeleteFile dialog st
     = (Rejected e, st, [CommandBar.OpenDeleteDialog CommandBar.deleteData])) /\
  (CommandBar.confirmDeletion dialog CommandBar.deleteData = Fulfilled false ->
   CommandBar.onDeleteFile dialog st
   = (Fulfilled tt, st, [CommandBar.OpenDeleteDialog CommandBar.deleteData])).
Proof.
  unfold CommandBar.onNewFile, CommandBar.onDeleteFile. js_unfold.
  destruct (CommandBar.promptForTitle dialog CommandBar.titleData)
    as [[title|]|e1|] eqn:Htitle;
    [destruct (truthy_string title)|..];
    (destruct (CommandBar.confirmDeletion dialog CommandBar.deleteData)
       as [[|]|e2|] eqn:Hconfirm);
    cbn; repeat split; auto; intros; congruence.
Qed.

Lemma handlers_leave_component_alone_witness :
  CommandBar.onNewFile
    (CommandBar.mkDialogs (fun _ => Rejected Scenario.denied) (fun _ => Fulfilled false))
    Sample.commandBar
  = (Rejected Scenario.denied, Sample.commandBar,
     [CommandBar.OpenTitleDialog CommandBar.titleData]) /\
  CommandBar.onDeleteFile
    (CommandBar.mkDialogs (fun _ => Rejected Scenario.denied) (fun _ => Fulfilled false))
    Sample.commandBar
  = (Fulfilled tt, Sample.commandBar,
     [CommandBar.OpenDeleteDialog CommandBar.deleteData]).
Proof.
  destruct (handlers_leave_component_alone
    (CommandBar.mkDialogs (fun _ => Rejected Scenario.denied) (fun _ => Fulfilled false))
    Sample.commandBar) as (_ & _ & _ & _ & Hnew & _ & Hdelete).
  split.
  - apply Hnew. reflexivity.
  - apply Hdelete. reflexivity.
Defined.
